(** * ComfyUI-Manager, glob/cnr_utils.py: the ComfyRegistry client

    A shallow embedding of the registry client: the page fetcher, the
    thread-pool page aggregator [fetch_all], the two-tier cache
    [get_cnr_data], the point lookups [install_node] and
    [all_versions_of_node], the payload mapper [map_node_version] and the
    local metadata reader [read_cnr_info].

    Conventions.
    - Python values coming from [response.json()], [json.load] and
      [toml.load] are values of type [json]; Python's [None] is [JNull].
      JSON numbers are integers here (floats are not represented).  A dict
      is an association list in insertion order, a lookup takes the first
      binding of a key.
    - The module's global dicts, the file system, the [lru_cache] of
      [get_version_and_form_factor] and two ghost logs (URLs requested,
      files opened) form the [world]; every operation is a function
      [world -> outcome * world].  A raised exception is the outcome
      [Raise e]; the world reached when it was raised is kept.
    - What the process cannot control (the network, the OS, the thread
      pool's scheduling) is the [ambient] record given to every call.
    - [print] calls are not represented. *)

From Stdlib Require Import ZArith String Ascii List Lia.
From stdpp Require Import base option list gmap strings fin_maps pretty.

Open Scope string_scope.
Open Scope list_scope.
Open Scope Z_scope.

(** ** Python values *)

Set Warnings "-register-all".

Inductive json : Type :=
| JNull
| JBool (b : bool)
| JNum (n : Z)
| JStr (s : string)
| JArr (items : list json)
| JObj (fields : list (string * json)).

(** Exceptions the module can meet; all of them are subclasses of
    Python's [Exception]. *)
Inductive exn : Type :=
| Exception (msg : string)
| KeyError (key : string)
| TypeError
| AttributeError
| RequestException
| JSONDecodeError
| TomlDecodeError
| ValueError.

Inductive result (A : Type) : Type :=
| Ok (a : A)
| Raise (e : exn).
Arguments Ok {A} a.
Arguments Raise {A} e.

Definition is_ok {A} (r : result A) : bool :=
  match r with Ok _ => true | Raise _ => false end.

(** [bool(v)] *)
Definition truthy (v : json) : bool :=
  match v with
  | JNull => false
  | JBool b => b
  | JNum n => negb (n =? 0)
  | JStr s => negb (String.eqb s "")
  | JArr l => match l with [] => false | _ => true end
  | JObj kvs => match kvs with [] => false | _ => true end
  end.

(** Dict lookup, first binding of the key. *)
Fixpoint assoc (k : string) (kvs : list (string * json)) : option json :=
  match kvs with
  | [] => None
  | (k', v) :: rest => if String.eqb k k' then Some v else assoc k rest
  end.

(** [d[k] = v] on a dict: an existing key keeps its position, a new key
    goes last. *)
Fixpoint assoc_set (k : string) (v : json) (kvs : list (string * json))
  : list (string * json) :=
  match kvs with
  | [] => [(k, v)]
  | (k', v') :: rest =>
      if String.eqb k k' then (k', v) :: rest else (k', v') :: assoc_set k v rest
  end.

Definition is_str (k : string) (v : json) : bool :=
  match v with JStr s => String.eqb k s | _ => false end.

Definition is_substring (k s : string) : bool :=
  match String.index 0 k s with Some _ => true | None => false end.

(** [k in v] for a string [k]: key test on a dict, element test on a
    list, substring test on a string, [TypeError] otherwise. *)
Definition py_in (k : string) (v : json) : result bool :=
  match v with
  | JObj kvs => Ok (bool_decide (is_Some (assoc k kvs)))
  | JArr l => Ok (existsb (is_str k) l)
  | JStr s => Ok (is_substring k s)
  | _ => Raise TypeError
  end.

(** [v[k]] for a string [k]. *)
Definition py_getitem (v : json) (k : string) : result json :=
  match v with
  | JObj kvs => match assoc k kvs with Some x => Ok x | None => Raise (KeyError k) end
  | _ => Raise TypeError
  end.

(** [v[k] = x] for a string [k]. *)
Definition py_setitem (v : json) (k : string) (x : json) : result json :=
  match v with
  | JObj kvs => Ok (JObj (assoc_set k x kvs))
  | _ => Raise TypeError
  end.

(** [v.get(k, default)]: only dicts have the method. *)
Definition py_get (v : json) (k : string) (default : json) : result json :=
  match v with
  | JObj kvs => Ok (match assoc k kvs with Some x => x | None => default end)
  | _ => Raise AttributeError
  end.

(** The integer a value compares as ([bool] is a subclass of [int]). *)
Definition py_int (v : json) : option Z :=
  match v with
  | JNum n => Some n
  | JBool b => Some (if b then 1 else 0)
  | _ => None
  end.

Fixpoint chars (s : string) : list json :=
  match s with
  | EmptyString => []
  | String c rest => JStr (String c EmptyString) :: chars rest
  end.

(** The elements [list.extend(v)] appends: the items of a list, the
    characters of a string, the keys of a dict. *)
Definition py_iter (v : json) : result (list json) :=
  match v with
  | JArr l => Ok l
  | JStr s => Ok (chars s)
  | JObj kvs => Ok (map (fun kv => JStr (fst kv)) kvs)
  | _ => Raise TypeError
  end.

Definition rbind {A B} (r : result A) (k : A -> result B) : result B :=
  match r with Ok a => k a | Raise e => Raise e end.

Notation "'let?' x ':=' r 'in' k" := (rbind r (fun x => k))
  (at level 10, x name, r at level 100, k at level 200, only parsing).

(** ASCII fragment of [str.lower] and [str.strip]. *)
Definition ascii_lower (c : ascii) : ascii :=
  let n := nat_of_ascii c in
  if ((65 <=? n) && (n <=? 90))%nat then ascii_of_nat (n + 32) else c.

Fixpoint str_lower (s : string) : string :=
  match s with
  | EmptyString => EmptyString
  | String c rest => String (ascii_lower c) (str_lower rest)
  end.

Definition is_space (c : ascii) : bool :=
  let n := nat_of_ascii c in
  (((9 <=? n) && (n <=? 13)) || ((28 <=? n) && (n <=? 32)))%nat.

Fixpoint str_lstrip (s : string) : string :=
  match s with
  | EmptyString => EmptyString
  | String c rest => if is_space c then str_lstrip rest else s
  end.

Fixpoint str_rstrip (s : string) : string :=
  match s with
  | EmptyString => EmptyString
  | String c rest =>
      match str_rstrip rest with
      | EmptyString => if is_space c then EmptyString else String c EmptyString
      | rest' => String c rest'
      end
  end.

Definition str_strip (s : string) : string := str_rstrip (str_lstrip s).

Definition ends_with_slash (s : string) : bool :=
  match String.length s with
  | O => false
  | S n => match String.get n s with
           | Some c => Ascii.eqb c "/"%char
           | None => false
           end
  end.

(** [os.path.join(a, b)] for a relative [b], POSIX flavour. *)
Definition path_join (a b : string) : string :=
  if String.eqb a "" then b
  else if ends_with_slash a then a +:+ b
  else a +:+ "/" +:+ b.

(** ** The data model *)

(** The [NodeVersion] dataclass.  A dataclass does not check its field
    types, so each field holds whatever value the payload had. *)
Record NodeVersion : Type := mkNodeVersion {
  changelog : json;
  dependencies : json;
  deprecated : json;
  id : json;
  version : json;
  download_url : json;
}.

(** What [memory_cache] holds: parsed payloads and [NodeVersion]s. *)
Inductive pyval : Type :=
| PJson (j : json)
| PNodeVersion (nv : NodeVersion).

(** Python's [None] as a return value. *)
Definition PNone : pyval := PJson JNull.

(** A file, by what the parsers make of its content. *)
Inductive file : Type :=
| JsonFile (content : json)
| TomlFile (content : json)
| OtherFile.

(** The answer of [requests.get]: a response with its status code and
    the outcome of [response.json()] ([None]: the body does not parse),
    or a transport failure. *)
Inductive http_outcome : Type :=
| Response (status_code : Z) (body : option json)
| ConnectionFailed.

Record ambient : Type := mkAmbient {
  http_get : string -> http_outcome;
  (* os.environ.get('__COMFYUI_DESKTOP_VERSION__') *)
  desktop_version : option string;
  (* platform.system() *)
  platform_system : string;
  (* manager_core.get_current_comfyui_ver() *)
  current_comfyui_ver : option string;
  (* manager_core.get_comfyui_tag() *)
  comfyui_tag : option string;
  (* which pending task the pool's workers finish next *)
  pool_schedule : list nat;
}.

Record world : Type := mkWorld {
  memory_cache : gmap string pyval;
  cnr_info_cache : gmap string json;
  fs : gmap string file;
  (* lru_cache(maxsize=1) of get_version_and_form_factor *)
  version_memo : option (string * string);
  (* ghost: URLs requested so far, oldest first *)
  requested : list string;
  (* ghost: files opened so far, oldest first *)
  opened : list string;
}.

Definition set_memory_cache (k : string) (v : pyval) (w : world) : world :=
  mkWorld (<[k := v]> (memory_cache w)) (cnr_info_cache w) (fs w)
          (version_memo w) (requested w) (opened w).

Definition set_cnr_info_cache (k : string) (v : json) (w : world) : world :=
  mkWorld (memory_cache w) (<[k := v]> (cnr_info_cache w)) (fs w)
          (version_memo w) (requested w) (opened w).

Definition write_file (path : string) (f : file) (w : world) : world :=
  mkWorld (memory_cache w) (cnr_info_cache w) (<[path := f]> (fs w))
          (version_memo w) (requested w) (opened w).

Definition set_version_memo (p : string * string) (w : world) : world :=
  mkWorld (memory_cache w) (cnr_info_cache w) (fs w)
          (Some p) (requested w) (opened w).

Definition log_request (url : string) (w : world) : world :=
  mkWorld (memory_cache w) (cnr_info_cache w) (fs w)
          (version_memo w) (requested w ++ [url]) (opened w).

Definition log_open (path : string) (w : world) : world :=
  mkWorld (memory_cache w) (cnr_info_cache w) (fs w)
          (version_memo w) (requested w) (opened w ++ [path]).

(** ** Stateful computations that may raise *)

Definition M (A : Type) : Type := world -> result A * world.

Definition ret {A} (a : A) : M A := fun w => (Ok a, w).

Definition raise {A} (e : exn) : M A := fun w => (Raise e, w).

Definition lift {A} (r : result A) : M A := fun w => (r, w).

Definition bind {A B} (m : M A) (k : A -> M B) : M B :=
  fun w =>
    match m w with
    | (Ok a, w') => k a w'
    | (Raise e, w') => (Raise e, w')
    end.

(** [try: m except Exception: h] *)
Definition try_except {A} (m : M A) (h : exn -> M A) : M A :=
  fun w =>
    match m w with
    | (Ok a, w') => (Ok a, w')
    | (Raise e, w') => h e w'
    end.

Definition gets {A} (f : world -> A) : M A := fun w => (Ok (f w), w).

Definition modify (f : world -> world) : M unit := fun w => (Ok tt, f w).

Notation "'let*' x ':=' m 'in' k" := (bind m (fun x => k))
  (at level 10, x name, m at level 100, k at level 200, only parsing).
Notation "m ';;;' k" := (bind m (fun _ => k))
  (at level 100, k at level 200, right associativity, only parsing).

(** Code of the repository outside this module. *)
Class ManagerUtil : Type := {
  (* manager_util.get_cache_path *)
  get_cache_path : string -> string;
  (* str(manager_util.StrictVersion(v)) *)
  strict_version_str : json -> result string;
}.

(** ** The registry client *)

Definition base_url : string := "https://api.comfy.org".

(** [x or 'unknown'] for an optional string. *)
Definition or_unknown (x : option string) : string :=
  match x with
  | Some s => if String.eqb s "" then "unknown" else s
  | None => "unknown"
  end.

Definition compute_version_and_form_factor (env : ambient) : string * string :=
  let is_desktop :=
    match desktop_version env with
    | Some s => negb (String.eqb s "")
    | None => false
    end in
  let system := str_lower (platform_system env) in
  let is_windows := String.eqb system "windows" in
  let is_mac := String.eqb system "darwin" in
  let is_linux := String.eqb system "linux" in
  let comfyui_ver :=
    if is_desktop then or_unknown (current_comfyui_ver env)
    else or_unknown (comfyui_tag env) in
  let form_factor :=
    if is_desktop then
      if is_windows then "desktop-win"
      else if is_mac then "desktop-mac"
      else "other"
    else
      if is_windows then "git-windows"
      else if is_mac then "git-mac"
      else if is_linux then "git-linux"
      else "other" in
  (comfyui_ver, form_factor).

Definition get_version_and_form_factor (env : ambient) : M (string * string) :=
  fun w =>
    match version_memo w with
    | Some p => (Ok p, w)
    | None =>
        let p := compute_version_and_form_factor env in
        (Ok p, set_version_memo p w)
    end.

(** [requests.get(url, timeout=10)] *)
Definition requests_get (env : ambient) (url : string) : M (Z * option json) :=
  fun w =>
    match http_get env url with
    | Response status body => (Ok (status, body), log_request url w)
    | ConnectionFailed => (Raise RequestException, log_request url w)
    end.

(** [response.json()] *)
Definition response_json (response : Z * option json) : result json :=
  match snd response with
  | Some j => Ok j
  | None => Raise JSONDecodeError
  end.

Definition page_uri (page : Z) (comfyui_ver form_factor : string) : string :=
  base_url +:+ "/nodes?page=" +:+ pretty page +:+ "&limit=30&comfyui_version="
           +:+ comfyui_ver +:+ "&form_factor=" +:+ form_factor.

Definition fetch_page (env : ambient) (page : Z) (comfyui_ver form_factor : string)
  : M json :=
  let sub_uri := page_uri page comfyui_ver form_factor in
  try_except
    (let* response := requests_get env sub_uri in
     if fst response =? 200 then lift (response_json response)
     else ret JNull)
    (fun _ => ret JNull).

(** The order in which the pool's workers finish the submitted tasks:
    each choice of the schedule picks one of the tasks still pending;
    when the schedule runs out the rest finish in submission order. *)
Fixpoint completion_order {A} (schedule : list nat) (pending : list A) : list A :=
  match schedule with
  | [] => pending
  | c :: schedule' =>
      match pending !! (c mod length pending)%nat with
      | Some task =>
          task :: completion_order schedule' (delete (c mod length pending)%nat pending)
      | None => pending
      end
  end.

(** The workers run the tasks; each stores its result in its future. *)
Fixpoint run_tasks (env : ambient) (comfyui_ver form_factor : string)
    (order : list Z) (futures : gmap Z json) : M (gmap Z json) :=
  match order with
  | [] => ret futures
  | page :: order' =>
      let* result := fetch_page env page comfyui_ver form_factor in
      run_tasks env comfyui_ver form_factor order' (<[page := result]> futures)
  end.

(** The [for i, future in enumerate(tasks, 2)] loop. *)
Fixpoint collect (futures : gmap Z json) (pages : list Z) (nodes : list json)
  : result (list json) :=
  match pages with
  | [] => Ok nodes
  | page :: pages' =>
      let result := default JNull (futures !! page) in
      if truthy result then
        let? has_nodes := py_in "nodes" result in
        if has_nodes then
          let? page_nodes := py_getitem result "nodes" in
          let? items := py_iter page_nodes in
          collect futures pages' (nodes ++ items)
        else collect futures pages' nodes
      else collect futures pages' nodes
  end.

Definition nightly : json := JObj [("version", JStr "nightly")].

(** The [for node in nodes] loop. *)
Fixpoint normalize (nodes : list json) : result (list json) :=
  match nodes with
  | [] => Ok []
  | node :: rest =>
      let? has := py_in "latest_version" node in
      let? node' := if has then Ok node else py_setitem node "latest_version" nightly in
      let? rest' := normalize rest in
      Ok (node' :: rest')
  end.

(** The part of [fetch_all] before the normalization loop. *)
Definition fetch_merged (env : ambient) (comfyui_ver form_factor : string)
  : M (list json) :=
  let* first_page := fetch_page env 1 comfyui_ver form_factor in
  if negb (truthy first_page) then raise (Exception "Failed to fetch first page")
  else
    let* total_pages := lift (py_getitem first_page "totalPages") in
    let* first_nodes := lift (py_getitem first_page "nodes") in
    let* nodes := lift (py_iter first_nodes) in
    match py_int total_pages with
    | None => raise TypeError
    | Some n =>
        if 1 <? n then
          let pages := seqZ 2 (n - 1) in
          let* futures :=
            run_tasks env comfyui_ver form_factor
                      (completion_order (pool_schedule env) pages) ∅ in
          lift (collect futures pages nodes)
        else ret nodes
    end.

Definition fetch_all (env : ambient) (comfyui_ver form_factor : string) : M json :=
  let* nodes := fetch_merged env comfyui_ver form_factor in
  let* nodes := lift (normalize nodes) in
  ret (JObj [("nodes", JArr nodes)]).

Section WithManagerUtil.
Context `{ManagerUtil}.

(** Modelled from the spec: [manager_util.save_to_cache], the persisted
    tier's [save(key, value)]; it stores the value as the JSON file at the
    key's cache path. *)
Definition save_to_cache (uri : string) (json_obj : json) : M unit :=
  modify (write_file (get_cache_path uri) (JsonFile json_obj)).

(** [with open(path) as f: json.load(f)] *)
Definition json_load (path : string) : M json :=
  fun w =>
    match fs w !! path with
    | Some (JsonFile j) => (Ok j, log_open path w)
    | Some _ => (Raise JSONDecodeError, log_open path w)
    | None => (Raise (Exception "FileNotFoundError"), w)
    end.

(** [with open(path) as f: toml.load(f)] *)
Definition toml_load (path : string) : M json :=
  fun w =>
    match fs w !! path with
    | Some (TomlFile t) => (Ok t, log_open path w)
    | Some _ => (Raise TomlDecodeError, log_open path w)
    | None => (Raise (Exception "FileNotFoundError"), w)
    end.

(** [os.path.exists(path)] *)
Definition path_exists (path : string) : M bool :=
  gets (fun w => bool_decide (is_Some (fs w !! path))).

(** [entry['nodes']] on a value of [memory_cache]. *)
Definition pyval_getitem (entry : pyval) (k : string) : result json :=
  match entry with
  | PJson j => py_getitem j k
  | PNodeVersion _ => Raise TypeError
  end.

Definition nodes_uri : string := base_url +:+ "/nodes".

(** The [try] block of [get_cnr_data] with its handler. *)
Definition live_fetch (env : ambient) : M json :=
  try_except
    (let* fingerprint := get_version_and_form_factor env in
     let* json_obj := fetch_all env (fst fingerprint) (snd fingerprint) in
     save_to_cache nodes_uri json_obj ;;;
     modify (set_memory_cache nodes_uri (PJson json_obj)) ;;;
     lift (py_getitem json_obj "nodes"))
    (fun _ => ret (JObj [])).

Definition get_cnr_data (env : ambient) (cache_mode dont_wait : bool) : M json :=
  let uri := nodes_uri in
  if cache_mode then
    let* cache := gets memory_cache in
    match cache !! uri with
    | Some entry => lift (pyval_getitem entry "nodes")
    | None =>
        let cache_path := get_cache_path uri in
        let* on_disk := path_exists cache_path in
        if on_disk then
          let* data := json_load cache_path in
          modify (set_memory_cache uri (PJson data)) ;;;
          lift (py_getitem data "nodes")
        else if dont_wait then ret (JObj [])
        else live_fetch env
    end
  else live_fetch env.

Definition map_node_version (api_node_version : json) : result NodeVersion :=
  let? changelog := py_get api_node_version "changelog" (JStr "") in
  let? dependencies := py_get api_node_version "dependencies" (JArr []) in
  let? deprecated := py_get api_node_version "deprecated" (JBool false) in
  let? id := py_getitem api_node_version "id" in
  let? version := py_getitem api_node_version "version" in
  let? download_url := py_get api_node_version "downloadUrl" (JStr "") in
  Ok (mkNodeVersion changelog dependencies deprecated id version download_url).

(** [version or 'latest'] *)
Definition or_latest (version : option string) : string :=
  match version with
  | Some v => if String.eqb v "" then "latest" else v
  | None => "latest"
  end.

Definition install_url (node_id : string) (version : option string) : string :=
  match version with
  | None => base_url +:+ "/nodes/" +:+ node_id +:+ "/install"
  | Some v => base_url +:+ "/nodes/" +:+ node_id +:+ "/install?version=" +:+ v
  end.

Definition install_cache_key (node_id : string) (version : option string) : string :=
  "install_" +:+ node_id +:+ "_" +:+ or_latest version.

Definition install_node (env : ambient) (node_id : string) (version : option string)
  : M pyval :=
  let cache_key := install_cache_key node_id version in
  let* cache := gets memory_cache in
  match cache !! cache_key with
  | Some hit => ret hit
  | None =>
      let url := install_url node_id version in
      let* response := requests_get env url in
      if fst response =? 200 then
        let* data := lift (response_json response) in
        let* result := lift (map_node_version data) in
        modify (set_memory_cache cache_key (PNodeVersion result)) ;;;
        ret (PNodeVersion result)
      else ret PNone
  end.

Definition versions_url (node_id : string) : string :=
  base_url +:+ "/nodes/" +:+ node_id
           +:+ "/versions?statuses=NodeVersionStatusActive&statuses=NodeVersionStatusPending".

Definition versions_cache_key (node_id : string) : string :=
  "versions_" +:+ node_id.

Definition all_versions_of_node (env : ambient) (node_id : string) : M pyval :=
  let cache_key := versions_cache_key node_id in
  let* cache := gets memory_cache in
  match cache !! cache_key with
  | Some hit => ret hit
  | None =>
      let url := versions_url node_id in
      let* response := requests_get env url in
      if fst response =? 200 then
        let* data := lift (response_json response) in
        modify (set_memory_cache cache_key (PJson data)) ;;;
        ret (PJson data)
      else ret PNone
  end.

(** [v.strip().lower()]: only strings have the methods. *)
Definition strip_lower (v : json) : result string :=
  match v with
  | JStr s => Ok (str_lower (str_strip s))
  | _ => Raise AttributeError
  end.

Definition read_cnr_info (fullpath : string) : M json :=
  let* cache := gets cnr_info_cache in
  match cache !! fullpath with
  | Some hit => ret hit
  | None =>
      try_except
        (let toml_path := path_join fullpath "pyproject.toml" in
         let tracking_path := path_join fullpath ".tracking" in
         let* has_toml := path_exists toml_path in
         let* has_tracking := path_exists tracking_path in
         if negb has_toml || negb has_tracking then ret JNull
         else
           let* data := toml_load toml_path in
           let* project := lift (py_get data "project" (JObj [])) in
           let* raw_name := lift (py_get project "name" JNull) in
           let* name := lift (strip_lower raw_name) in
           let* raw_version := lift (py_get project "version" JNull) in
           let* version := lift (strict_version_str raw_version) in
           let* urls := lift (py_get project "urls" (JObj [])) in
           let* repository := lift (py_get urls "Repository" JNull) in
           if negb (String.eqb name "") && negb (String.eqb version "") then
             let result :=
               JObj [("id", JStr name); ("version", JStr version); ("url", repository)] in
             modify (set_cnr_info_cache fullpath result) ;;;
             ret result
           else ret JNull)
        (fun _ => ret JNull)
  end.

End WithManagerUtil.

(** ** What a page fetch denotes *)

(** The value [fetch_page] returns: the parsed body of a 200 response,
    [None] for any other status, transport failure or unparsable body. *)
Definition page_result (env : ambient) (page : Z) (ver ff : string) : json :=
  match http_get env (page_uri page ver ff) with
  | Response status body =>
      if status =? 200 then match body with Some j => j | None => JNull end
      else JNull
  | ConnectionFailed => JNull
  end.

(** A page fetch came back with the failure sentinel. *)
Definition page_failed (env : ambient) (page : Z) (ver ff : string) : bool :=
  match page_result env page ver ff with JNull => true | _ => false end.

(** A page of the shape the registry documents: an object whose [nodes]
    field is an array. *)
Definition well_formed_page (j : json) : Prop :=
  exists fields items, j = JObj fields /\ assoc "nodes" fields = Some (JArr items).

(** The entries a fetched page holds. *)
Definition entries_of (j : json) : list json :=
  match j with
  | JObj fields =>
      match assoc "nodes" fields with
      | Some (JArr items) => items
      | _ => []
      end
  | _ => []
  end.

Definition log_requests (urls : list string) (w : world) : world :=
  mkWorld (memory_cache w) (cnr_info_cache w) (fs w)
          (version_memo w) (requested w ++ urls) (opened w).

Definition nodes_obj (nodes : list json) : json := JObj [("nodes", JArr nodes)].

Definition has_latest_version (node : json) : Prop :=
  py_in "latest_version" node = Ok true.

Definition is_object (j : json) : Prop := exists fields, j = JObj fields.

(** The futures after the workers ran the tasks of [order]. *)
Definition futures_after (env : ambient) (ver ff : string)
    (order : list Z) (futures : gmap Z json) : gmap Z json :=
  foldl (fun m page => <[page := page_result env page ver ff]> m) futures order.

(** The entry after the normalization loop, in the spec's words: an
    entry lacking [latest_version] gets the nightly placeholder, any other
    entry is unchanged. *)
Definition with_latest_version (node : json) : json :=
  match node with
  | JObj fields =>
      match assoc "latest_version" fields with
      | Some _ => node
      | None => JObj (fields ++ [("latest_version", nightly)])
      end
  | _ => node
  end.

(** The pages of [2..total_pages] whose fetch did not fail. *)
Definition successful_pages (env : ambient) (ver ff : string) (total_pages : Z)
  : list Z :=
  List.filter (fun page => negb (page_failed env page ver ff))
              (seqZ 2 (total_pages - 1)).

(** The merged sequence in the spec's words: page 1's entries, then the
    entries of each successful page in ascending page order. *)
Definition merged_spec (env : ambient) (ver ff : string)
    (first_nodes : list json) (total_pages : Z) : list json :=
  first_nodes
    ++ flat_map (fun page => entries_of (page_result env page ver ff))
                (successful_pages env ver ff total_pages).

(** The same surroundings with another completion order of the pool. *)
Definition with_schedule (schedule : list nat) (env : ambient) : ambient :=
  mkAmbient (http_get env) (desktop_version env) (platform_system env)
            (current_comfyui_ver env) (comfyui_tag env) schedule.

(** The pair [get_version_and_form_factor] returns in a world. *)
Definition live_fingerprint (env : ambient) (w : world) : string * string :=
  match version_memo w with
  | Some p => p
  | None => compute_version_and_form_factor env
  end.

(** The [fetch_all] call a live fetch makes from a world. *)
Definition live_fetch_all (env : ambient) (w : world) : result json * world :=
  fetch_all env (fst (live_fingerprint env w)) (snd (live_fingerprint env w))
            (snd (get_version_and_form_factor env w)).

(** [get_cnr_data] reaches its [try] block: caching is off, or both tiers
    miss and the caller is willing to wait. *)
Definition falls_through `{ManagerUtil} (cache_mode dont_wait : bool) (w : world)
  : Prop :=
  cache_mode = false
  \/ (memory_cache w !! nodes_uri = None
      /\ fs w !! get_cache_path nodes_uri = None
      /\ dont_wait = false).

(** A payload has a field: it is an object that binds the key. *)
Definition has_field (k : string) (payload : json) : Prop :=
  exists fields v, payload = JObj fields /\ assoc k fields = Some v.

(** The value of an optional field: the payload's, or the default when
    the key is absent. *)
Definition field_or (k : string) (default : json) (fields : list (string * json))
  : json :=
  match assoc k fields with
  | Some v => v
  | None => default
  end.

(** ** Sample data *)

Module Sample.

(** A cache-path function, and the version normalizer on the versions
    the samples use. *)
Definition util : ManagerUtil := {|
  get_cache_path uri := ".cache/" +:+ uri;
  strict_version_str v :=
    match v with
    | JStr "1.0.0" => Ok "1.0.0"
    | JStr "2.5" => Ok "2.5.0"
    | _ => Raise ValueError
    end;
|}.

Definition empty_world : world := mkWorld ∅ ∅ ∅ None [] [].

(** A git checkout on Linux at tag v0.3.40, in front of a given network. *)
Definition ambient_of (net : string -> http_outcome) (schedule : list nat)
  : ambient :=
  mkAmbient net None "Linux" None (Some "v0.3.40") schedule.

Definition ver : string := "v0.3.40".
Definition ff : string := "git-linux".

(** No network at all. *)
Definition offline : ambient := ambient_of (fun _ => ConnectionFailed) [].

(** Every request is answered 503 with a body that does not parse. *)
Definition unavailable : ambient := ambient_of (fun _ => Response 503 None) [].

(** Every request is answered 200 with a body that does not parse. *)
Definition garbled : ambient := ambient_of (fun _ => Response 200 None) [].

Definition pack (name : string) : json := JObj [("id", JStr name)].

Definition released (name v : string) : json :=
  JObj [("id", JStr name); ("latest_version", JObj [("version", JStr v)])].

Definition page (nodes : list json) (total : Z) : json :=
  JObj [("nodes", JArr nodes); ("totalPages", JNum total)].

(** A registry of five pages whose pages 2 and 5 fail: page 2 by a
    transport failure, page 5 by a 500 status. *)
Definition five_pages (url : string) : http_outcome :=
  if String.eqb url (page_uri 1 ver ff) then
    Response 200 (Some (page [released "a" "1.0.0"; pack "b"] 5))
  else if String.eqb url (page_uri 2 ver ff) then ConnectionFailed
  else if String.eqb url (page_uri 3 ver ff) then
    Response 200 (Some (page [pack "c"] 5))
  else if String.eqb url (page_uri 4 ver ff) then
    Response 200 (Some (page [released "d" "2.0.0"] 5))
  else if String.eqb url (page_uri 5 ver ff) then Response 500 None
  else Response 404 None.

(** The pool finishes page 4 first, then 2, then 5, then 3. *)
Definition registry : ambient := ambient_of five_pages [2; 0; 1]%nat.

Definition descriptor : json :=
  JObj [("project",
         JObj [("name", JStr " My-Pack "); ("version", JStr "2.5");
               ("urls", JObj [("Repository", JStr "https://example.org/my-pack")])])].

(** A package directory with its descriptor but no tracking marker. *)
Definition untracked : world :=
  write_file "/nodes/my-pack/pyproject.toml" (TomlFile descriptor) empty_world.

(** The same directory once the marker exists. *)
Definition tracked (w : world) : world :=
  write_file "/nodes/my-pack/.tracking" OtherFile w.

End Sample.

(** ** Text as Python reads and counts it *)

(** Strings are byte strings holding UTF-8.  A string of ASCII
    characters is one on which [str_lower] and [str_strip] are Python's
    [str.lower] and [str.strip]. *)
Fixpoint is_ascii (s : string) : bool :=
  match s with
  | EmptyString => true
  | String c rest => (nat_of_ascii c <? 128)%nat && is_ascii rest
  end.

(** [len(s)]: the number of characters, that is of bytes that do not
    continue a UTF-8 sequence. *)
Fixpoint char_count (s : string) : nat :=
  match s with
  | EmptyString => 0%nat
  | String c rest =>
      if ((128 <=? nat_of_ascii c) && (nat_of_ascii c <? 192))%nat
      then char_count rest
      else S (char_count rest)
  end.

(** What a text-mode read makes of the line endings: a carriage return,
    alone or followed by a line feed, comes back as one line feed. *)
Fixpoint universal_newlines (s : string) : string :=
  match s with
  | EmptyString => EmptyString
  | String c rest =>
      if Ascii.eqb c "013"%char then
        match rest with
        | String d rest' =>
            if Ascii.eqb d "010"%char
            then String "010"%char (universal_newlines rest')
            else String "010"%char (universal_newlines rest)
        | EmptyString => String "010"%char EmptyString
        end
      else String c (universal_newlines rest)
  end.

(** The string holds no carriage return. *)
Fixpoint no_carriage_return (s : string) : bool :=
  match s with
  | EmptyString => true
  | String c rest => negb (Ascii.eqb c "013"%char) && no_carriage_return rest
  end.

(** ** The package identifier file *)

(** A text file, by what reading it gives. *)
Inductive text_file : Type :=
| Readable (content : string)
| Unreadable.

(** The text files the identifier functions see (no other function of
    the module touches them), and whether [open(path, "w")] can create a
    file at a path. *)
Record id_store : Type := mkIdStore {
  texts : gmap string text_file;
  can_create : string -> bool;
}.

(** [os.path.join(fullpath, '.git', '.cnr-id')] *)
Definition cnr_id_path (fullpath : string) : string :=
  path_join (path_join fullpath ".git") ".cnr-id".

(** Returns what [f.write] returned (the number of characters) when
    the file was written, [None] when the file was there already or could
    not be created.  The file is written in text mode (POSIX flavour: a
    line feed is written as it is), so what a later read gives is the
    identifier with its line endings as a text-mode read gives them. *)
Definition generate_cnr_id (fullpath cnr_id : string) (g : id_store)
  : json * id_store :=
  let cnr_id_path := cnr_id_path fullpath in
  match texts g !! cnr_id_path with
  | Some _ => (JNull, g)
  | None =>
      if can_create g cnr_id_path then
        (JNum (Z.of_nat (char_count cnr_id)),
         mkIdStore (<[cnr_id_path := Readable (universal_newlines cnr_id)]> (texts g))
                   (can_create g))
      else (JNull, g)
  end.

Definition read_cnr_id (fullpath : string) (g : id_store) : json :=
  let cnr_id_path := cnr_id_path fullpath in
  match texts g !! cnr_id_path with
  | Some (Readable content) => JStr (str_strip content)
  | Some Unreadable => JNull
  | None => JNull
  end.

(** ** Notions the further properties use *)

(** The desktop marker is set to a non-empty value. *)
Definition is_desktop (env : ambient) : bool :=
  match desktop_version env with
  | Some s => negb (String.eqb s "")
  | None => false
  end.

(** A new process over the same files: the module's dicts, the
    [lru_cache] and the ghost logs start empty. *)
Definition restart (w : world) : world := mkWorld ∅ ∅ (fs w) None [] [].

Definition pyproject_path (fullpath : string) : string :=
  path_join fullpath "pyproject.toml".

Definition tracking_path (fullpath : string) : string :=
  path_join fullpath ".tracking".

(** ** The life of a process *)

(** One thing that happens after a call: another call of a function of
    the module that works on the [world], or a change of the files made
    from outside the process.  (The identifier functions work on their
    own store and leave the [world] alone.) *)
Inductive event : Type :=
| GetVersionAndFormFactor (env : ambient)
| FetchPage (env : ambient) (page : Z) (comfyui_ver form_factor : string)
| FetchAll (env : ambient) (comfyui_ver form_factor : string)
| GetCnrData (env : ambient) (cache_mode dont_wait : bool)
| InstallNode (env : ambient) (node_id : string) (wanted : option string)
| AllVersionsOfNode (env : ambient) (node_id : string)
| ReadCnrInfo (fullpath : string)
| FilesChanged (files : gmap string file).

Definition set_files (files : gmap string file) (w : world) : world :=
  mkWorld (memory_cache w) (cnr_info_cache w) files
          (version_memo w) (requested w) (opened w).

(** The world after an event; what a call returned or raised is
    dropped, what it did to the world is kept. *)
Definition run_event `{ManagerUtil} (e : event) (w : world) : world :=
  match e with
  | GetVersionAndFormFactor env => snd (get_version_and_form_factor env w)
  | FetchPage env page ver ff => snd (fetch_page env page ver ff w)
  | FetchAll env ver ff => snd (fetch_all env ver ff w)
  | GetCnrData env cache_mode dont_wait =>
      snd (get_cnr_data env cache_mode dont_wait w)
  | InstallNode env node_id wanted => snd (install_node env node_id wanted w)
  | AllVersionsOfNode env node_id => snd (all_versions_of_node env node_id w)
  | ReadCnrInfo fullpath => snd (read_cnr_info fullpath w)
  | FilesChanged files => set_files files w
  end.

Definition run_events `{ManagerUtil} (events : list event) (w : world) : world :=
  foldl (fun w e => run_event e w) w events.

(** ** More sample data *)

Module Fixture.

Definition listing (names : list string) : json :=
  nodes_obj (map (fun name => Sample.released name "1.0.0") names).

(** The in-memory tier holds an older listing. *)
Definition stale : world :=
  set_memory_cache nodes_uri (PJson (listing ["old"])) Sample.empty_world.

(** The persisted tier holds a listing, a file that is not JSON, or a
    JSON file without the [nodes] key. *)
Definition on_disk (f : file) : world :=
  write_file (@get_cache_path Sample.util nodes_uri) f Sample.empty_world.

Definition payload : json :=
  JObj [("id", JStr "my-pack"); ("version", JStr "1.2.0");
        ("downloadUrl", JStr "https://example.org/my-pack-1.2.0.zip")].

Definition versions : json :=
  JArr [JObj [("version", JStr "1.2.0")]; JObj [("version", JStr "1.1.0")]].

(** A registry that knows one package. *)
Definition shop_net (url : string) : http_outcome :=
  if String.eqb url (install_url "my-pack" None) then Response 200 (Some payload)
  else if String.eqb url (install_url "broken" None) then
    Response 200 (Some (JObj [("version", JStr "0.1.0")]))
  else if String.eqb url (versions_url "my-pack") then Response 200 (Some versions)
  else Response 404 None.

Definition shop : ambient := Sample.ambient_of shop_net [].

(** A registry whose single page is well formed but for one entry. *)
Definition odd_net (url : string) : http_outcome :=
  if String.eqb url (page_uri 1 Sample.ver Sample.ff) then
    Response 200 (Some (Sample.page [Sample.pack "a"; JStr "my latest_version"] 1))
  else Response 404 None.

Definition odd : ambient := Sample.ambient_of odd_net [].

(** A Windows desktop install whose version is not known. *)
Definition desktop : ambient :=
  mkAmbient (fun _ => ConnectionFailed) (Some "0.4.5") "Windows" None None [].

(** A checkout with a [.git] directory, and one without. *)
Definition checkout : id_store := mkIdStore ∅ (fun _ => true).
Definition no_git : id_store := mkIdStore ∅ (fun _ => false).

End Fixture.

(** ** Basic facts *)

(** A list of sample entries are all objects. *)
Ltac objects := repeat constructor; eexists; reflexivity.

(** Case analysis as [destruct_innermost], keeping the equation. *)
Ltac destruct_innermost_eqn :=
  match goal with
  | |- context [match ?x with _ => _ end] =>
      lazymatch x with
      | context [match _ with _ => _ end] => fail
      | _ => destruct x eqn:?
      end
  end.

(** Case analysis on a scrutinee that is not itself a case analysis. *)
Ltac destruct_innermost :=
  match goal with
  | |- context [match ?x with _ => _ end] =>
      lazymatch x with
      | context [match _ with _ => _ end] => fail
      | _ => destruct x
      end
  end.

Lemma fetch_page_eq env page ver ff w :
  fetch_page env page ver ff w
  = (Ok (page_result env page ver ff), log_request (page_uri page ver ff) w).
Proof.
  unfold fetch_page, page_result, try_except, bind, requests_get, lift, ret,
    response_json.
  destruct (http_get env (page_uri page ver ff)) as [status body|]; simpl;
    [|reflexivity].
  destruct (status =? 200), body; reflexivity.
Qed.

Lemma log_requests_nil w : log_requests [] w = w.
Proof. destruct w; unfold log_requests; simpl. by rewrite app_nil_r. Qed.

Lemma log_requests_cons url urls w :
  log_requests urls (log_request url w) = log_requests (url :: urls) w.
Proof.
  unfold log_requests, log_request; simpl. by rewrite <- app_assoc.
Qed.

Lemma completion_order_perm {A} (schedule : list nat) (pending : list A) :
  completion_order schedule pending ≡ₚ pending.
Proof.
  revert pending. induction schedule as [|c schedule IH]; intros pending; simpl.
  - reflexivity.
  - destruct (pending !! (c mod length pending)%nat) as [task|] eqn:Hlook.
    + rewrite IH. symmetry. by apply delete_Permutation.
    + reflexivity.
Qed.

Lemma run_tasks_eq env ver ff order futures w :
  run_tasks env ver ff order futures w
  = (Ok (futures_after env ver ff order futures),
     log_requests (map (fun page => page_uri page ver ff) order) w).
Proof.
  revert futures w. induction order as [|page order IH]; intros futures w; simpl.
  - unfold ret. by rewrite log_requests_nil.
  - unfold bind. rewrite fetch_page_eq. rewrite IH.
    by rewrite log_requests_cons.
Qed.

Lemma futures_after_lookup env ver ff order futures page :
  page ∈ order ->
  futures_after env ver ff order futures !! page = Some (page_result env page ver ff).
Proof.
  unfold futures_after. revert futures.
  induction order as [|p order IH]; intros futures Hin; simpl.
  - by apply elem_of_nil in Hin.
  - destruct (decide (page ∈ order)) as [Hlater|Hnot].
    + by apply IH.
    + apply elem_of_cons in Hin as [->|?]; [|done].
      clear IH. revert futures. induction order as [|q order IH]; intros futures; simpl.
      * apply lookup_insert_eq.
      * apply not_elem_of_cons in Hnot as [Hne Hnot].
        rewrite insert_insert_ne by done. by apply IH.
Qed.

Lemma futures_complete env ver ff schedule pages page :
  page ∈ pages ->
  futures_after env ver ff (completion_order schedule pages) ∅ !! page
  = Some (page_result env page ver ff).
Proof.
  intros Hin. apply futures_after_lookup.
  by rewrite completion_order_perm.
Qed.

Lemma well_formed_page_truthy j : well_formed_page j -> truthy j = true.
Proof.
  intros (fields & items & -> & Hnodes). destruct fields; [discriminate | reflexivity].
Qed.

Lemma collect_eq env ver ff futures pages nodes :
  (forall page, page ∈ pages ->
     futures !! page = Some (page_result env page ver ff)) ->
  (forall page, page ∈ pages ->
     page_failed env page ver ff = true
     \/ well_formed_page (page_result env page ver ff)) ->
  collect futures pages nodes
  = Ok (nodes ++ flat_map (fun page => entries_of (page_result env page ver ff)) pages).
Proof.
  revert nodes. induction pages as [|page pages IH]; intros nodes Hfut Hshape; simpl.
  - by rewrite app_nil_r.
  - assert (Hhere : page ∈ page :: pages) by (apply elem_of_cons; by left).
    rewrite (Hfut page Hhere). simpl.
    assert (IH' : forall nodes',
      collect futures pages nodes'
      = Ok (nodes' ++ flat_map (fun page => entries_of (page_result env page ver ff)) pages)).
    { intros nodes'. apply IH; intros q Hq; [apply Hfut | apply Hshape];
        apply elem_of_cons; by right. }
    destruct (Hshape page Hhere) as [Hfail | Hwf].
    + unfold page_failed in Hfail.
      destruct (page_result env page ver ff); try discriminate. simpl. apply IH'.
    + rewrite (well_formed_page_truthy _ Hwf).
      destruct Hwf as (fields & items & -> & Hnodes). simpl.
      rewrite Hnodes. simpl. rewrite IH'. by rewrite <- app_assoc.
Qed.

Lemma flat_map_successful env ver ff pages :
  flat_map (fun page => entries_of (page_result env page ver ff))
           (List.filter (fun page => negb (page_failed env page ver ff)) pages)
  = flat_map (fun page => entries_of (page_result env page ver ff)) pages.
Proof.
  induction pages as [|page pages IH]; simpl; [reflexivity|].
  unfold page_failed at 1.
  destruct (page_result env page ver ff) eqn:Hres; simpl; rewrite ?Hres, IH;
    reflexivity.
Qed.

Lemma elem_of_seqZ_pages page n : page ∈ seqZ 2 (n - 1) -> 2 <= page <= n.
Proof. rewrite elem_of_seqZ. lia. Qed.

Lemma completion_order_nil {A} (schedule : list nat) :
  completion_order schedule ([] : list A) = [].
Proof. destruct schedule; reflexivity. Qed.

Lemma fetch_merged_eq env ver ff w fields total_pages first_nodes :
  page_result env 1 ver ff = JObj fields ->
  assoc "totalPages" fields = Some (JNum total_pages) ->
  assoc "nodes" fields = Some (JArr first_nodes) ->
  (forall page, 2 <= page <= total_pages ->
     page_failed env page ver ff = true
     \/ well_formed_page (page_result env page ver ff)) ->
  fetch_merged env ver ff w
  = (Ok (merged_spec env ver ff first_nodes total_pages),
     log_requests
       (page_uri 1 ver ff
          :: map (fun page => page_uri page ver ff)
                 (completion_order (pool_schedule env) (seqZ 2 (total_pages - 1))))
       w).
Proof.
  intros Hfirst Htotal Hnodes Hshape.
  unfold fetch_merged, bind. rewrite fetch_page_eq, Hfirst.
  assert (Htruthy : truthy (JObj fields) = true).
  { destruct fields; [discriminate | reflexivity]. }
  rewrite Htruthy. simpl. unfold lift. rewrite Htotal, Hnodes. simpl.
  unfold merged_spec, successful_pages. rewrite flat_map_successful.
  destruct (1 <? total_pages) eqn:Hgt.
  - rewrite run_tasks_eq. rewrite log_requests_cons.
    rewrite (collect_eq env ver ff).
    + reflexivity.
    + intros page Hin. by apply futures_complete.
    + intros page Hin. apply Hshape. by apply elem_of_seqZ_pages.
  - apply Z.ltb_ge in Hgt.
    assert (Hempty : seqZ 2 (total_pages - 1) = []).
    { unfold seqZ. replace (Z.to_nat (total_pages - 1)) with 0%nat by lia.
      reflexivity. }
    rewrite Hempty, completion_order_nil. simpl. by rewrite app_nil_r.
Qed.

Lemma normalize_objects nodes :
  Forall is_object nodes -> normalize nodes = Ok (map with_latest_version nodes).
Proof.
  induction 1 as [|node nodes [fields ->] _ IH]; simpl; [reflexivity|].
  rewrite IH.
  destruct (assoc "latest_version" fields) as [v|] eqn:Hl; simpl.
  - reflexivity.
  - do 3 f_equal. clear -Hl.
    induction fields as [|[k v] fields IH]; cbn [assoc assoc_set app] in *.
    + reflexivity.
    + destruct (String.eqb "latest_version" k); [discriminate|].
      by rewrite IH.
Qed.

Lemma fetch_all_eq env ver ff w :
  fetch_all env ver ff w
  = (match fst (fetch_merged env ver ff w) with
     | Ok merged => let? nodes := normalize merged in Ok (nodes_obj nodes)
     | Raise e => Raise e
     end,
     snd (fetch_merged env ver ff w)).
Proof.
  unfold fetch_all, bind, lift, ret.
  destruct (fetch_merged env ver ff w) as [[merged|e] w']; simpl; [|reflexivity].
  destruct (normalize merged); reflexivity.
Qed.

(** ** The page aggregator *)

(** C1. With a successful first page announcing [total_pages] pages, and
    every later page either failed or well formed, [fetch_all] merges page
    1's entries followed by the entries of the successful pages in
    ascending page order; a failed page adds nothing and raises nothing:
    the outcome is the normalization of that merged sequence, which
    succeeds whenever the entries are objects, and it is the same for
    every order in which the pool finishes the pages. *)
Theorem fetch_all_merges_in_page_order env ver ff w fields total_pages first_nodes :
  page_result env 1 ver ff = JObj fields ->
  assoc "totalPages" fields = Some (JNum total_pages) ->
  assoc "nodes" fields = Some (JArr first_nodes) ->
  (forall page, 2 <= page <= total_pages ->
     page_failed env page ver ff = true
     \/ well_formed_page (page_result env page ver ff)) ->
  let merged := merged_spec env ver ff first_nodes total_pages in
  fst (fetch_merged env ver ff w) = Ok merged
  /\ fst (fetch_all env ver ff w) = (let? nodes := normalize merged in Ok (nodes_obj nodes))
  /\ (Forall is_object merged ->
      fst (fetch_all env ver ff w) = Ok (nodes_obj (map with_latest_version merged)))
  /\ (forall page, page_failed env page ver ff = true ->
      entries_of (page_result env page ver ff) = []
      /\ page ∉ successful_pages env ver ff total_pages)
  /\ (forall schedule,
      fst (fetch_all (with_schedule schedule env) ver ff w)
      = fst (fetch_all env ver ff w)).
Proof.
  intros Hfirst Htotal Hnodes Hshape merged.
  pose proof (fetch_merged_eq env ver ff w _ _ _ Hfirst Htotal Hnodes Hshape) as Heq.
  rewrite fetch_all_eq, Heq. cbn [fst snd].
  split; [reflexivity|]. split; [reflexivity|]. split; [|split].
  - intros Hobj. by rewrite normalize_objects.
  - intros page Hfail. split.
    + unfold page_failed in Hfail. by destruct (page_result env page ver ff).
    + unfold successful_pages. rewrite list_elem_of_In, filter_In.
      intros [_ Hneg]. rewrite Hfail in Hneg. discriminate.
  - intros schedule.
    pose proof (fetch_merged_eq (with_schedule schedule env) ver ff w _ _ _
                  Hfirst Htotal Hnodes Hshape) as Heq'.
    rewrite fetch_all_eq, Heq'. reflexivity.
Qed.

(** C3. When the fetch of page 1 returns the failure sentinel,
    [fetch_all] raises "Failed to fetch first page" and the only request
    it has made is the one for page 1. *)
Theorem fetch_all_first_page_failure env ver ff w :
  fst (fetch_page env 1 ver ff w) = Ok JNull ->
  fst (fetch_all env ver ff w) = Raise (Exception "Failed to fetch first page")
  /\ requested (snd (fetch_all env ver ff w)) = requested w ++ [page_uri 1 ver ff]
  /\ snd (fetch_all env ver ff w) = log_request (page_uri 1 ver ff) w.
Proof.
  rewrite fetch_page_eq. simpl. intros [= Hnull].
  rewrite fetch_all_eq. unfold fetch_merged, bind.
  rewrite fetch_page_eq, Hnull. simpl. auto.
Qed.

Lemma with_latest_version_has node :
  is_object node -> has_latest_version (with_latest_version node).
Proof.
  intros [fields ->]. unfold has_latest_version, with_latest_version.
  destruct (assoc "latest_version" fields) as [v|] eqn:Hl.
  - cbn [py_in]. rewrite Hl. reflexivity.
  - cbn [py_in]. f_equal. apply bool_decide_eq_true_2.
    clear Hl. induction fields as [|[k v] fields IH]; cbn [assoc app].
    + rewrite String.eqb_refl. eauto.
    + destruct (String.eqb "latest_version" k); eauto.
Qed.

(** C5. When the merged entries are objects, [fetch_all] returns them
    normalized: every returned entry has a [latest_version] field, an
    entry that lacked one has gained exactly [{version: "nightly"}] (as
    its last field), and an entry that had one is unchanged. *)
Theorem fetch_all_latest_version env ver ff w merged :
  fst (fetch_merged env ver ff w) = Ok merged ->
  Forall is_object merged ->
  fst (fetch_all env ver ff w) = Ok (nodes_obj (map with_latest_version merged))
  /\ Forall has_latest_version (map with_latest_version merged)
  /\ forall node, node ∈ merged ->
       (has_latest_version node -> with_latest_version node = node)
       /\ (~ has_latest_version node ->
           exists fields, node = JObj fields
             /\ with_latest_version node
                = JObj (fields ++ [("latest_version", JObj [("version", JStr "nightly")])])).
Proof.
  intros Hmerged Hobj. rewrite fetch_all_eq, Hmerged.
  rewrite normalize_objects by done. split; [reflexivity|]. split.
  - apply Forall_fmap. eapply Forall_impl; [exact Hobj|].
    intros node Hnode. by apply with_latest_version_has.
  - intros node Hin.
    rewrite Forall_forall in Hobj. destruct (Hobj node Hin) as [fields ->].
    unfold has_latest_version, with_latest_version. cbn [py_in].
    destruct (assoc "latest_version" fields) as [v|] eqn:Hl; split.
    + reflexivity.
    + intros Hno. exfalso. by apply Hno.
    + intros Hyes. discriminate Hyes.
    + intros _. exists fields. split; reflexivity.
Qed.

Lemma fetch_all_shape env ver ff w obj :
  fst (fetch_all env ver ff w) = Ok obj -> exists nodes, obj = nodes_obj nodes.
Proof.
  rewrite fetch_all_eq. simpl.
  destruct (fst (fetch_merged env ver ff w)) as [merged|e]; [|discriminate].
  destruct (normalize merged) as [nodes|e]; simpl; [|discriminate].
  intros [= <-]. eauto.
Qed.

Lemma fetch_all_world env ver ff w :
  exists rest,
    snd (fetch_all env ver ff w) = log_requests (page_uri 1 ver ff :: rest) w.
Proof.
  rewrite fetch_all_eq. simpl. unfold fetch_merged, bind, raise, lift, ret.
  rewrite fetch_page_eq.
  destruct (negb (truthy (page_result env 1 ver ff))); [by exists []|].
  destruct (py_getitem (page_result env 1 ver ff) "totalPages") as [total|e];
    [|by exists []].
  destruct (py_getitem (page_result env 1 ver ff) "nodes") as [first|e];
    [|by exists []].
  destruct (py_iter first) as [nodes|e]; [|by exists []].
  destruct (py_int total) as [n|]; [|by exists []].
  destruct (1 <? n); [|by exists []].
  rewrite run_tasks_eq, log_requests_cons. eexists. reflexivity.
Qed.

(** ** The tiered cache *)

Section TieredCache.
Context `{ManagerUtil}.

Lemma get_version_and_form_factor_eq env w :
  get_version_and_form_factor env w
  = (Ok (live_fingerprint env w), snd (get_version_and_form_factor env w)).
Proof.
  unfold get_version_and_form_factor, live_fingerprint.
  destruct (version_memo w); reflexivity.
Qed.

Lemma live_fetch_eq env w :
  live_fetch env w
  = match live_fetch_all env w with
    | (Ok obj, w1) =>
        (match py_getitem obj "nodes" with
         | Ok nodes => Ok nodes
         | Raise _ => Ok (JObj [])
         end,
         set_memory_cache nodes_uri (PJson obj)
           (write_file (get_cache_path nodes_uri) (JsonFile obj) w1))
    | (Raise e, w1) => (Ok (JObj []), w1)
    end.
Proof.
  unfold live_fetch, try_except, bind. rewrite get_version_and_form_factor_eq.
  unfold live_fetch_all. cbn [fst snd].
  destruct (fetch_all _ _ _ _) as [[obj|e] w1]; [|reflexivity].
  unfold save_to_cache, modify, lift, ret.
  destruct (py_getitem obj "nodes"); reflexivity.
Qed.

Lemma live_fetch_all_shape env w obj :
  fst (live_fetch_all env w) = Ok obj -> exists nodes, obj = nodes_obj nodes.
Proof. apply fetch_all_shape. Qed.

Lemma live_fetch_success env w obj :
  fst (live_fetch_all env w) = Ok obj ->
  exists nodes,
    obj = nodes_obj nodes
    /\ live_fetch env w
       = (Ok (JArr nodes),
          set_memory_cache nodes_uri (PJson obj)
            (write_file (get_cache_path nodes_uri) (JsonFile obj)
               (snd (live_fetch_all env w)))).
Proof.
  intros Hok. destruct (live_fetch_all_shape _ _ _ Hok) as [nodes ->].
  exists nodes. split; [reflexivity|]. rewrite live_fetch_eq.
  destruct (live_fetch_all env w) as [r w1]. simpl in Hok. subst r. reflexivity.
Qed.

Lemma live_fetch_failure env w e :
  fst (live_fetch_all env w) = Raise e ->
  live_fetch env w = (Ok (JObj []), snd (live_fetch_all env w)).
Proof.
  intros Hfail. rewrite live_fetch_eq.
  destruct (live_fetch_all env w) as [r w1]. simpl in Hfail. subst r. reflexivity.
Qed.

Lemma live_fetch_never_raises env w : is_ok (fst (live_fetch env w)) = true.
Proof.
  rewrite live_fetch_eq. destruct (live_fetch_all env w) as [[obj|e] w1];
    [|reflexivity].
  simpl. destruct (py_getitem obj "nodes"); reflexivity.
Qed.

Lemma get_cnr_data_falls_through env cache_mode dont_wait w :
  falls_through cache_mode dont_wait w ->
  get_cnr_data env cache_mode dont_wait w = live_fetch env w.
Proof.
  intros [-> | (Hmem & Hdisk & ->)]; [reflexivity|].
  destruct cache_mode; [|reflexivity].
  unfold get_cnr_data, bind, gets, path_exists. cbn [fst snd]. rewrite Hmem.
  cbn. rewrite Hdisk. rewrite bool_decide_eq_false_2 by (intros [? ?]; discriminate).
  reflexivity.
Qed.

Lemma get_cnr_data_warming env w :
  memory_cache w !! nodes_uri = None ->
  fs w !! get_cache_path nodes_uri = None ->
  get_cnr_data env true true w = (Ok (JObj []), w).
Proof.
  intros Hmem Hdisk.
  unfold get_cnr_data, bind, gets, path_exists. rewrite Hmem.
  cbn. rewrite Hdisk. rewrite bool_decide_eq_false_2 by (intros [? ?]; discriminate).
  reflexivity.
Qed.

Lemma get_cnr_data_memory_hit env dont_wait w entry :
  memory_cache w !! nodes_uri = Some entry ->
  get_cnr_data env true dont_wait w = (pyval_getitem entry "nodes", w).
Proof.
  intros Hmem. unfold get_cnr_data, bind, gets, lift. by rewrite Hmem.
Qed.

Lemma get_cnr_data_disk_hit env dont_wait w data :
  memory_cache w !! nodes_uri = None ->
  fs w !! get_cache_path nodes_uri = Some (JsonFile data) ->
  get_cnr_data env true dont_wait w
  = (py_getitem data "nodes",
     set_memory_cache nodes_uri (PJson data)
       (log_open (get_cache_path nodes_uri) w)).
Proof.
  intros Hmem Hdisk.
  unfold get_cnr_data, bind, gets, path_exists, json_load, modify, lift.
  rewrite Hmem. cbn. rewrite Hdisk.
  rewrite bool_decide_eq_true_2 by eauto. cbn. by rewrite Hdisk.
Qed.

Lemma get_version_and_form_factor_frame env w :
  let w' := snd (get_version_and_form_factor env w) in
  memory_cache w' = memory_cache w /\ fs w' = fs w /\ requested w' = requested w
  /\ cnr_info_cache w' = cnr_info_cache w /\ opened w' = opened w.
Proof.
  unfold get_version_and_form_factor. destruct (version_memo w); simpl; auto.
Qed.

Lemma live_fetch_all_frame env w :
  exists rest,
    let w' := snd (live_fetch_all env w) in
    requested w'
    = requested w
        ++ page_uri 1 (fst (live_fingerprint env w)) (snd (live_fingerprint env w))
        :: rest
    /\ memory_cache w' = memory_cache w /\ fs w' = fs w.
Proof.
  unfold live_fetch_all.
  destruct (fetch_all_world env (fst (live_fingerprint env w))
              (snd (live_fingerprint env w))
              (snd (get_version_and_form_factor env w))) as [rest Hworld].
  exists rest. rewrite Hworld. simpl.
  destruct (get_version_and_form_factor_frame env w) as (Hm & Hf & Hr & _).
  by rewrite Hm, Hf, Hr.
Qed.

(** C2. With [cache_mode=False], [get_cnr_data] runs the live fetch
    whatever the caches hold: the request for page 1 is always issued.
    When [fetch_all] succeeds, its result is stored in the in-memory tier
    and in the persisted tier, its nodes are returned, and any later call
    with [cache_mode=True] returns the same nodes and leaves the world,
    request log included, as it was. *)
Theorem get_cnr_data_refresh env dont_wait w :
  let out := get_cnr_data env false dont_wait w in
  out = live_fetch env w
  /\ (exists rest,
        requested (snd out)
        = requested w
            ++ page_uri 1 (fst (live_fingerprint env w)) (snd (live_fingerprint env w))
            :: rest)
  /\ forall obj, fst (live_fetch_all env w) = Ok obj ->
       fst out = py_getitem obj "nodes"
       /\ memory_cache (snd out) !! nodes_uri = Some (PJson obj)
       /\ fs (snd out) !! get_cache_path nodes_uri = Some (JsonFile obj)
       /\ forall env' dont_wait',
            get_cnr_data env' true dont_wait' (snd out) = (fst out, snd out).
Proof.
  cbn zeta. split; [reflexivity|].
  change (get_cnr_data env false dont_wait w) with (live_fetch env w).
  destruct (live_fetch_all_frame env w) as (rest & Hreq & _).
  split.
  - exists rest. rewrite live_fetch_eq.
    cbn zeta in Hreq. destruct (live_fetch_all env w) as [[obj|e] w1]; exact Hreq.
  - intros obj Hok.
    destruct (live_fetch_success env w obj Hok) as (nodes & -> & ->).
    cbn [fst snd]. split; [reflexivity|].
    assert (Hmem : memory_cache
              (set_memory_cache nodes_uri (PJson (nodes_obj nodes))
                 (write_file (get_cache_path nodes_uri) (JsonFile (nodes_obj nodes))
                    (snd (live_fetch_all env w)))) !! nodes_uri
            = Some (PJson (nodes_obj nodes))).
    { simpl. apply lookup_insert_eq. }
    split; [exact Hmem|]. split.
    + simpl. apply lookup_insert_eq.
    + intros env' dont_wait'.
      by rewrite (get_cnr_data_memory_hit env' dont_wait' _ _ Hmem).
Qed.

(** C6. With [cache_mode=True] and [dont_wait=True], when neither the
    in-memory tier nor the persisted tier holds the listing,
    [get_cnr_data] returns the empty mapping and changes nothing: no
    request is issued and no file is opened. *)
Theorem get_cnr_data_dont_wait_empty env w :
  memory_cache w !! nodes_uri = None ->
  fs w !! get_cache_path nodes_uri = None ->
  fst (get_cnr_data env true true w) = Ok (JObj [])
  /\ snd (get_cnr_data env true true w) = w
  /\ requested (snd (get_cnr_data env true true w)) = requested w.
Proof.
  intros Hmem Hdisk. by rewrite get_cnr_data_warming.
Qed.

(** C7. Whenever [get_cnr_data] reaches the live fetch it returns
    normally; if [fetch_all] raised, whatever the exception, the value
    returned is the empty mapping and neither cache tier is touched. *)
Theorem get_cnr_data_fetch_failure env cache_mode dont_wait w :
  falls_through cache_mode dont_wait w ->
  let out := get_cnr_data env cache_mode dont_wait w in
  is_ok (fst out) = true
  /\ forall e, fst (live_fetch_all env w) = Raise e ->
       fst out = Ok (JObj [])
       /\ memory_cache (snd out) = memory_cache w
       /\ fs (snd out) = fs w.
Proof.
  intros Hfall. cbn zeta. rewrite (get_cnr_data_falls_through _ _ _ _ Hfall).
  split; [apply live_fetch_never_raises|].
  intros e Hfail. rewrite (live_fetch_failure _ _ _ Hfail). cbn [fst snd].
  destruct (live_fetch_all_frame env w) as (rest & _ & Hm & Hf). auto.
Qed.

(** C10. The result shape of [get_cnr_data] differs by branch: the
    degraded branch and the fetch-failure branch return the empty
    mapping; a memory hit and a disk hit return the value stored under
    ['nodes'] of the cached object, and a successful fetch returns the
    list of nodes; the empty mapping is not a list. *)
Theorem get_cnr_data_result_shape env w :
  (memory_cache w !! nodes_uri = None ->
   fs w !! get_cache_path nodes_uri = None ->
   fst (get_cnr_data env true true w) = Ok (JObj []))
  /\ (forall cache_mode dont_wait e,
        falls_through cache_mode dont_wait w ->
        fst (live_fetch_all env w) = Raise e ->
        fst (get_cnr_data env cache_mode dont_wait w) = Ok (JObj []))
  /\ (forall dont_wait obj nodes,
        memory_cache w !! nodes_uri = Some (PJson obj) ->
        py_getitem obj "nodes" = Ok nodes ->
        fst (get_cnr_data env true dont_wait w) = Ok nodes)
  /\ (forall dont_wait data nodes,
        memory_cache w !! nodes_uri = None ->
        fs w !! get_cache_path nodes_uri = Some (JsonFile data) ->
        py_getitem data "nodes" = Ok nodes ->
        fst (get_cnr_data env true dont_wait w) = Ok nodes)
  /\ (forall cache_mode dont_wait obj,
        falls_through cache_mode dont_wait w ->
        fst (live_fetch_all env w) = Ok obj ->
        exists nodes,
          py_getitem obj "nodes" = Ok (JArr nodes)
          /\ fst (get_cnr_data env cache_mode dont_wait w) = Ok (JArr nodes))
  /\ (forall items, JObj [] <> JArr items).
Proof.
  repeat apply conj.
  - intros Hmem Hdisk. by rewrite get_cnr_data_warming.
  - intros cache_mode dont_wait e Hfall Hfail.
    rewrite (get_cnr_data_falls_through _ _ _ _ Hfall).
    by rewrite (live_fetch_failure _ _ _ Hfail).
  - intros dont_wait obj nodes Hmem Hnodes.
    by rewrite (get_cnr_data_memory_hit _ _ _ _ Hmem).
  - intros dont_wait data nodes Hmem Hdisk Hnodes.
    by rewrite (get_cnr_data_disk_hit _ _ _ _ Hmem Hdisk).
  - intros cache_mode dont_wait obj Hfall Hok.
    rewrite (get_cnr_data_falls_through _ _ _ _ Hfall).
    destruct (live_fetch_success _ _ _ Hok) as (nodes & -> & ->).
    exists nodes. split; reflexivity.
  - intros items. discriminate.
Qed.

End TieredCache.

(** ** The payload mapper and the point lookups *)

(** C8. [map_node_version] fails exactly when the payload lacks [id] or
    [version]; on a payload with both it returns the record holding them,
    with [changelog], [dependencies], [deprecated] and [downloadUrl] taken
    from the payload when present and defaulting to [""], [[]], [False]
    and [""] when absent. *)
Theorem map_node_version_spec payload :
  (is_ok (map_node_version payload) = false
   <-> ~ (has_field "id" payload /\ has_field "version" payload))
  /\ forall fields i v,
       payload = JObj fields ->
       assoc "id" fields = Some i ->
       assoc "version" fields = Some v ->
       map_node_version payload
       = Ok {| changelog := field_or "changelog" (JStr "") fields;
               dependencies := field_or "dependencies" (JArr []) fields;
               deprecated := field_or "deprecated" (JBool false) fields;
               id := i;
               version := v;
               download_url := field_or "downloadUrl" (JStr "") fields |}.
Proof.
  split.
  - destruct payload as [| b | n | s | items | fields];
      try (split; [intros _ [(? & ? & [=] & _) _] | reflexivity]).
    unfold map_node_version, has_field. cbn [py_get py_getitem rbind].
    destruct (assoc "id" fields) as [i|] eqn:Hid;
      destruct (assoc "version" fields) as [v|] eqn:Hver; cbn [rbind is_ok];
      split; try discriminate; try reflexivity.
    + intros Hnot. exfalso. apply Hnot. split; eauto.
    + intros _ [_ (? & ? & [= <-] & Hv)]. congruence.
    + intros _ [(? & ? & [= <-] & Hi) _]. congruence.
    + intros _ [(? & ? & [= <-] & Hi) _]. congruence.
  - intros fields i v -> Hid Hver.
    unfold map_node_version, field_or. cbn [py_get py_getitem rbind].
    rewrite Hid, Hver. reflexivity.
Qed.



Section PersistedTierErrors.
Context `{ManagerUtil}.

Lemma get_cnr_data_unparsable env dont_wait w f :
  memory_cache w !! nodes_uri = None ->
  fs w !! get_cache_path nodes_uri = Some f ->
  (forall j, f <> JsonFile j) ->
  get_cnr_data env true dont_wait w
  = (Raise JSONDecodeError, log_open (get_cache_path nodes_uri) w).
Proof.
  intros Hmem Hdisk Hbad.
  unfold get_cnr_data, path_exists, json_load, bind, gets, modify, lift.
  rewrite Hmem. cbn. rewrite Hdisk.
  rewrite bool_decide_eq_true_2 by eauto. cbn. rewrite Hdisk.
  destruct f; try reflexivity. by destruct (Hbad content).
Qed.

End PersistedTierErrors.

(** ** The local metadata reader *)

Section LocalMetadata.
Context `{ManagerUtil}.

Lemma read_cnr_info_hit fullpath w hit :
  cnr_info_cache w !! fullpath = Some hit ->
  read_cnr_info fullpath w = (Ok hit, w).
Proof.
  intros Hhit. unfold read_cnr_info, bind, gets, ret. by rewrite Hhit.
Qed.

(** On a miss the reader either returns [None] and leaves the cache
    alone, or returns an identity and memoizes exactly it. *)
Lemma read_cnr_info_miss fullpath w :
  cnr_info_cache w !! fullpath = None ->
  (fst (read_cnr_info fullpath w) = Ok JNull
   /\ cnr_info_cache (snd (read_cnr_info fullpath w)) = cnr_info_cache w)
  \/ (exists fields,
        fst (read_cnr_info fullpath w) = Ok (JObj fields)
        /\ cnr_info_cache (snd (read_cnr_info fullpath w))
           = <[fullpath := JObj fields]> (cnr_info_cache w)).
Proof.
  intros Hmiss.
  unfold read_cnr_info, path_exists, toml_load, try_except, bind, gets, ret,
    lift, modify.
  cbn [fst snd]. rewrite Hmiss.
  repeat (first
    [ progress cbv beta iota
    | progress cbn [fst snd cnr_info_cache log_open set_cnr_info_cache]
    | destruct_innermost ]);
    eauto.
Qed.

Lemma read_cnr_info_never_raises fullpath w :
  exists v, fst (read_cnr_info fullpath w) = Ok v.
Proof.
  destruct (cnr_info_cache w !! fullpath) as [hit|] eqn:Hcache.
  - exists hit. by rewrite (read_cnr_info_hit _ _ _ Hcache).
  - destruct (read_cnr_info_miss fullpath w Hcache) as [[Hr _] | (fields & Hr & _)];
      eauto.
Qed.

Lemma read_cnr_info_entry fullpath w result :
  fst (read_cnr_info fullpath w) = Ok result ->
  result <> JNull ->
  cnr_info_cache (snd (read_cnr_info fullpath w)) !! fullpath = Some result.
Proof.
  intros Hfirst Hvalid.
  destruct (cnr_info_cache w !! fullpath) as [hit|] eqn:Hcache.
  - rewrite (read_cnr_info_hit _ _ _ Hcache) in *. cbn [fst snd] in *.
    congruence.
  - destruct (read_cnr_info_miss fullpath w Hcache)
      as [[Hr _] | (fields & Hr & Hc)].
    + congruence.
    + rewrite Hc, lookup_insert_eq. congruence.
Qed.

(** No function of the module removes or replaces an entry of
    [cnr_info_cache]: the reader adds entries for paths that have none,
    the other functions do not touch the dict. *)

Lemma read_cnr_info_keeps_entries fullpath w path r :
  cnr_info_cache w !! path = Some r ->
  cnr_info_cache (snd (read_cnr_info fullpath w)) !! path = Some r.
Proof.
  intros Hentry.
  destruct (cnr_info_cache w !! fullpath) as [hit|] eqn:Hcache.
  - by rewrite (read_cnr_info_hit _ _ _ Hcache).
  - destruct (read_cnr_info_miss fullpath w Hcache)
      as [[_ Hc] | (fields & _ & Hc)]; rewrite Hc; [exact Hentry|].
    rewrite lookup_insert_ne; [exact Hentry|]. congruence.
Qed.

Lemma fetch_all_cnr_info_cache env ver ff w :
  cnr_info_cache (snd (fetch_all env ver ff w)) = cnr_info_cache w.
Proof. destruct (fetch_all_world env ver ff w) as [rest ->]. reflexivity. Qed.

Lemma live_fetch_cnr_info_cache env w :
  cnr_info_cache (snd (live_fetch env w)) = cnr_info_cache w.
Proof.
  rewrite live_fetch_eq.
  pose proof (fetch_all_cnr_info_cache env (fst (live_fingerprint env w))
                (snd (live_fingerprint env w))
                (snd (get_version_and_form_factor env w))) as Hfetch.
  fold (live_fetch_all env w) in Hfetch.
  destruct (get_version_and_form_factor_frame env w) as (_ & _ & _ & Hmemo & _).
  cbn zeta in Hmemo. rewrite Hmemo in Hfetch.
  destruct (live_fetch_all env w) as [[obj|e] w1]; exact Hfetch.
Qed.

Lemma get_cnr_data_cnr_info_cache env cache_mode dont_wait w :
  cnr_info_cache (snd (get_cnr_data env cache_mode dont_wait w)) = cnr_info_cache w.
Proof.
  destruct cache_mode; [|apply live_fetch_cnr_info_cache].
  destruct (memory_cache w !! nodes_uri) as [entry|] eqn:Hmem.
  { by rewrite (get_cnr_data_memory_hit _ _ _ _ Hmem). }
  destruct (fs w !! get_cache_path nodes_uri) as [f|] eqn:Hdisk.
  - destruct f as [data| |].
    + by rewrite (get_cnr_data_disk_hit _ _ _ _ Hmem Hdisk).
    + by rewrite (get_cnr_data_unparsable _ _ _ _ Hmem Hdisk).
    + by rewrite (get_cnr_data_unparsable _ _ _ _ Hmem Hdisk).
  - destruct dont_wait.
    + by rewrite (get_cnr_data_warming _ _ Hmem Hdisk).
    + rewrite get_cnr_data_falls_through by (right; auto).
      apply live_fetch_cnr_info_cache.
Qed.

Lemma install_node_cnr_info_cache env node_id wanted w :
  cnr_info_cache (snd (install_node env node_id wanted w)) = cnr_info_cache w.
Proof.
  unfold install_node, requests_get, bind, gets, modify, lift, ret.
  cbn [fst snd].
  destruct (memory_cache w !! install_cache_key node_id wanted); [reflexivity|].
  destruct (http_get env (install_url node_id wanted)) as [status body|];
    [|reflexivity].
  cbn [fst snd]. destruct (status =? 200); [|reflexivity].
  destruct (response_json (status, body)) as [data|e]; [|reflexivity].
  destruct (map_node_version data) as [nv|e]; reflexivity.
Qed.

Lemma all_versions_of_node_cnr_info_cache env node_id w :
  cnr_info_cache (snd (all_versions_of_node env node_id w)) = cnr_info_cache w.
Proof.
  unfold all_versions_of_node, requests_get, bind, gets, modify, lift, ret.
  cbn [fst snd].
  destruct (memory_cache w !! versions_cache_key node_id); [reflexivity|].
  destruct (http_get env (versions_url node_id)) as [status body|];
    [|reflexivity].
  cbn [fst snd]. destruct (status =? 200); [|reflexivity].
  destruct (response_json (status, body)) as [data|e]; reflexivity.
Qed.

Lemma run_event_keeps_entries e w path r :
  cnr_info_cache w !! path = Some r ->
  cnr_info_cache (run_event e w) !! path = Some r.
Proof.
  intros Hentry. destruct e; cbn [run_event].
  - destruct (get_version_and_form_factor_frame env w) as (_ & _ & _ & Hmemo & _).
    cbn zeta in Hmemo. by rewrite Hmemo.
  - by rewrite fetch_page_eq.
  - by rewrite fetch_all_cnr_info_cache.
  - by rewrite get_cnr_data_cnr_info_cache.
  - by rewrite install_node_cnr_info_cache.
  - by rewrite all_versions_of_node_cnr_info_cache.
  - by apply read_cnr_info_keeps_entries.
  - exact Hentry.
Qed.

Lemma run_events_keeps_entries events w path r :
  cnr_info_cache w !! path = Some r ->
  cnr_info_cache (run_events events w) !! path = Some r.
Proof.
  unfold run_events. revert w.
  induction events as [|e events IH]; intros w Hentry; cbn [foldl].
  - exact Hentry.
  - apply IH. by apply run_event_keeps_entries.
Qed.

(** C9, as the code has it.  [read_cnr_info] never raises.  A result
    other than [None] is memoized by path for the life of the process:
    after any sequence of further calls of the module's functions, for
    this path or others, and of changes to the files, a call for the path
    returns the same result and changes nothing, so no file is examined.
    The answer depends on the memo entry alone: any world holding the
    entry gives it.  A first call that finds no valid identity returns
    [None] and memoizes nothing. *)
Theorem read_cnr_info_memoizes_identities fullpath w :
  (exists v, fst (read_cnr_info fullpath w) = Ok v)
  /\ (forall result events,
        fst (read_cnr_info fullpath w) = Ok result ->
        result <> JNull ->
        let later := run_events events (snd (read_cnr_info fullpath w)) in
        read_cnr_info fullpath later = (Ok result, later))
  /\ (forall result later,
        fst (read_cnr_info fullpath w) = Ok result ->
        result <> JNull ->
        cnr_info_cache later !! fullpath
        = cnr_info_cache (snd (read_cnr_info fullpath w)) !! fullpath ->
        read_cnr_info fullpath later = (Ok result, later))
  /\ (cnr_info_cache w !! fullpath = None ->
      fst (read_cnr_info fullpath w) = Ok JNull ->
      cnr_info_cache (snd (read_cnr_info fullpath w)) = cnr_info_cache w).
Proof.
  split; [apply read_cnr_info_never_raises|]. split; [|split].
  - intros result events Hfirst Hvalid. cbn zeta.
    apply read_cnr_info_hit, run_events_keeps_entries.
    by apply read_cnr_info_entry.
  - intros result later Hfirst Hvalid Hlater.
    apply read_cnr_info_hit. rewrite Hlater. by apply read_cnr_info_entry.
  - intros Hcache Hnone.
    destruct (read_cnr_info_miss fullpath w Hcache)
      as [[_ Hc] | (fields & Hr & _)]; [exact Hc | congruence].
Qed.

End LocalMetadata.

(** C9, as stated, fails: the first call for a directory without its
    tracking marker returns [None]; once the marker exists, the second
    call for the same path opens the descriptor and returns the
    identity. *)
Lemma read_cnr_info_absent_is_retried :
  fst (@read_cnr_info Sample.util "/nodes/my-pack" Sample.untracked) = Ok JNull
  /\ fst (@read_cnr_info Sample.util "/nodes/my-pack"
            (Sample.tracked
               (snd (@read_cnr_info Sample.util "/nodes/my-pack" Sample.untracked))))
     = Ok (JObj [("id", JStr "my-pack"); ("version", JStr "2.5.0");
                 ("url", JStr "https://example.org/my-pack")])
  /\ opened (snd (@read_cnr_info Sample.util "/nodes/my-pack"
                    (Sample.tracked
                       (snd (@read_cnr_info Sample.util "/nodes/my-pack"
                               Sample.untracked)))))
     = ["/nodes/my-pack/pyproject.toml"].
Proof. repeat split; vm_compute; reflexivity. Qed.

(** ** The theorems at the sample data *)

Lemma fetch_all_merges_in_page_order_witness :
  fst (fetch_all Sample.registry Sample.ver Sample.ff Sample.empty_world)
  = Ok (nodes_obj
          [Sample.released "a" "1.0.0";
           JObj [("id", JStr "b"); ("latest_version", nightly)];
           JObj [("id", JStr "c"); ("latest_version", nightly)];
           Sample.released "d" "2.0.0"])
  /\ successful_pages Sample.registry Sample.ver Sample.ff 5 = [3; 4].
Proof.
  destruct (fetch_all_merges_in_page_order
              Sample.registry Sample.ver Sample.ff Sample.empty_world
              [("nodes", JArr [Sample.released "a" "1.0.0"; Sample.pack "b"]);
               ("totalPages", JNum 5)]
              5 [Sample.released "a" "1.0.0"; Sample.pack "b"])
    as (_ & _ & Hall & _ & _).
  - reflexivity.
  - reflexivity.
  - reflexivity.
  - intros page Hpage.
    assert (Hcases : page = 2 \/ page = 3 \/ page = 4 \/ page = 5) by lia.
    destruct Hcases as [-> | [-> | [-> | ->]]].
    + left. reflexivity.
    + right. eexists _, _. split; reflexivity.
    + right. eexists _, _. split; reflexivity.
    + left. reflexivity.
  - split; [|reflexivity]. rewrite Hall; [reflexivity|].
    vm_compute. objects.
Defined.

Lemma fetch_all_first_page_failure_witness :
  fst (fetch_all Sample.offline Sample.ver Sample.ff Sample.empty_world)
  = Raise (Exception "Failed to fetch first page")
  /\ requested (snd (fetch_all Sample.offline Sample.ver Sample.ff Sample.empty_world))
     = [page_uri 1 Sample.ver Sample.ff].
Proof.
  destruct (fetch_all_first_page_failure
              Sample.offline Sample.ver Sample.ff Sample.empty_world)
    as (Hraise & Hlog & _).
  - reflexivity.
  - split; [exact Hraise | exact Hlog].
Defined.

Lemma fetch_all_latest_version_witness :
  fst (fetch_all Sample.registry Sample.ver Sample.ff Sample.empty_world)
  = Ok (nodes_obj
          (map with_latest_version
             [Sample.released "a" "1.0.0"; Sample.pack "b"; Sample.pack "c";
              Sample.released "d" "2.0.0"]))
  /\ with_latest_version (Sample.pack "b")
     = JObj [("id", JStr "b"); ("latest_version", JObj [("version", JStr "nightly")])]
  /\ with_latest_version (Sample.released "a" "1.0.0") = Sample.released "a" "1.0.0".
Proof.
  destruct (fetch_all_latest_version
              Sample.registry Sample.ver Sample.ff Sample.empty_world
              [Sample.released "a" "1.0.0"; Sample.pack "b"; Sample.pack "c";
               Sample.released "d" "2.0.0"])
    as (Hall & _ & _).
  - reflexivity.
  - objects.
  - split; [exact Hall|]. split; reflexivity.
Defined.

Lemma get_cnr_data_refresh_witness :
  fst (@get_cnr_data Sample.util Sample.registry false true Sample.empty_world)
  = Ok (JArr (map with_latest_version
                [Sample.released "a" "1.0.0"; Sample.pack "b"; Sample.pack "c";
                 Sample.released "d" "2.0.0"]))
  /\ @get_cnr_data Sample.util Sample.offline true true
       (snd (@get_cnr_data Sample.util Sample.registry false true Sample.empty_world))
     = @get_cnr_data Sample.util Sample.registry false true Sample.empty_world.
Proof.
  destruct (@get_cnr_data_refresh Sample.util Sample.registry true Sample.empty_world)
    as (_ & _ & Hstored).
  destruct (Hstored (nodes_obj (map with_latest_version
                [Sample.released "a" "1.0.0"; Sample.pack "b"; Sample.pack "c";
                 Sample.released "d" "2.0.0"])))
    as (Hnodes & _ & _ & Hagain).
  - reflexivity.
  - split; [exact Hnodes|]. rewrite Hagain.
    by destruct (@get_cnr_data Sample.util Sample.registry false true Sample.empty_world).
Defined.

Lemma get_cnr_data_dont_wait_empty_witness :
  @get_cnr_data Sample.util Sample.registry true true Sample.empty_world
  = (Ok (JObj []), Sample.empty_world).
Proof.
  destruct (@get_cnr_data_dont_wait_empty Sample.util Sample.registry Sample.empty_world)
    as (Hempty & Hsame & _).
  - reflexivity.
  - reflexivity.
  - destruct (@get_cnr_data Sample.util Sample.registry true true Sample.empty_world).
    cbn [fst snd] in *. by subst.
Defined.

Lemma get_cnr_data_fetch_failure_witness :
  fst (@get_cnr_data Sample.util Sample.offline false true Sample.empty_world)
  = Ok (JObj [])
  /\ fst (@get_cnr_data Sample.util Sample.offline true false Sample.empty_world)
     = Ok (JObj []).
Proof.
  split.
  - destruct (@get_cnr_data_fetch_failure Sample.util Sample.offline false true
                Sample.empty_world) as (_ & Hfail).
    + left. reflexivity.
    + destruct (Hfail (Exception "Failed to fetch first page")) as (Hempty & _);
        [reflexivity | exact Hempty].
  - destruct (@get_cnr_data_fetch_failure Sample.util Sample.offline true false
                Sample.empty_world) as (_ & Hfail).
    + right. repeat split; reflexivity.
    + destruct (Hfail (Exception "Failed to fetch first page")) as (Hempty & _);
        [reflexivity | exact Hempty].
Defined.

Lemma get_cnr_data_result_shape_witness :
  fst (@get_cnr_data Sample.util Sample.registry true true Sample.empty_world)
  = Ok (JObj [])
  /\ fst (@get_cnr_data Sample.util Sample.offline false true Sample.empty_world)
     = Ok (JObj [])
  /\ exists nodes,
       fst (@get_cnr_data Sample.util Sample.registry false true Sample.empty_world)
       = Ok (JArr nodes).
Proof.
  destruct (@get_cnr_data_result_shape Sample.util Sample.registry Sample.empty_world)
    as (Hwarming & _ & _ & _ & Hfetched & _).
  destruct (@get_cnr_data_result_shape Sample.util Sample.offline Sample.empty_world)
    as (_ & Hfailed & _).
  split; [apply Hwarming; reflexivity|]. split.
  - apply (Hfailed false true (Exception "Failed to fetch first page"));
      [left|]; reflexivity.
  - destruct (Hfetched false true
                (nodes_obj (map with_latest_version
                   [Sample.released "a" "1.0.0"; Sample.pack "b"; Sample.pack "c";
                    Sample.released "d" "2.0.0"])))
      as (nodes & _ & Hnodes); [left| |]; [reflexivity..|].
    exists nodes. exact Hnodes.
Defined.

Lemma map_node_version_spec_witness :
  map_node_version
    (JObj [("id", JStr "my-pack"); ("version", JStr "1.0.0");
           ("deprecated", JBool true)])
  = Ok {| changelog := JStr "";
          dependencies := JArr [];
          deprecated := JBool true;
          id := JStr "my-pack";
          version := JStr "1.0.0";
          download_url := JStr "" |}
  /\ is_ok (map_node_version (JObj [("version", JStr "1.0.0")])) = false.
Proof.
  split.
  - apply (proj2 (map_node_version_spec _)
                  [("id", JStr "my-pack"); ("version", JStr "1.0.0");
                   ("deprecated", JBool true)]
                  (JStr "my-pack") (JStr "1.0.0"));
      reflexivity.
  - apply (proj1 (map_node_version_spec _)).
    intros [(fields & v & Hobj & Hid) _]. injection Hobj as <-. discriminate Hid.
Defined.


Lemma read_cnr_info_memoizes_identities_witness :
  fst (@read_cnr_info Sample.util "/nodes/my-pack"
         (@run_events Sample.util
            [FilesChanged ∅; ReadCnrInfo "/nodes/other";
             GetCnrData Sample.offline false true;
             InstallNode Sample.unavailable "my-pack" None]
            (snd (@read_cnr_info Sample.util "/nodes/my-pack"
                    (Sample.tracked Sample.untracked)))))
  = Ok (JObj [("id", JStr "my-pack"); ("version", JStr "2.5.0");
              ("url", JStr "https://example.org/my-pack")]).
Proof.
  destruct (@read_cnr_info_memoizes_identities Sample.util "/nodes/my-pack"
              (Sample.tracked Sample.untracked)) as (_ & Hmemo & _).
  rewrite (Hmemo (JObj [("id", JStr "my-pack"); ("version", JStr "2.5.0");
                        ("url", JStr "https://example.org/my-pack")]));
    [reflexivity | reflexivity | discriminate].
Defined.

(** ** Further properties: the environment fingerprint *)

Lemma or_unknown_nonempty x : or_unknown x <> "".
Proof.
  unfold or_unknown. destruct x as [s|]; [|discriminate].
  destruct (String.eqb s "") eqn:Hs; [discriminate|].
  by apply String.eqb_neq.
Qed.

(** X1. [get_version_and_form_factor] is computed once: after a first
    call, a call under any other surroundings returns the pair of the
    first call and changes nothing. *)
Theorem version_and_form_factor_memoized env env' w :
  get_version_and_form_factor env' (snd (get_version_and_form_factor env w))
  = (fst (get_version_and_form_factor env w),
     snd (get_version_and_form_factor env w)).
Proof.
  unfold get_version_and_form_factor.
  destruct (version_memo w) as [p|] eqn:Hmemo; cbn [fst snd].
  - by rewrite Hmemo.
  - reflexivity.
Qed.

(** X2. In a process that has not computed it yet, the fingerprint is a
    non-empty version (the literal "unknown" when the host gives none)
    and one of six form factors: a desktop install is [desktop-win],
    [desktop-mac] or [other] and takes the version of the host package, a
    checkout is [git-windows], [git-mac], [git-linux] or [other] and takes
    the git tag. *)
Theorem version_and_form_factor_values env w :
  version_memo w = None ->
  exists ver ff,
    fst (get_version_and_form_factor env w) = Ok (ver, ff)
    /\ version_memo (snd (get_version_and_form_factor env w)) = Some (ver, ff)
    /\ ver <> ""
    /\ (is_desktop env = true ->
        ver = or_unknown (current_comfyui_ver env)
        /\ In ff ["desktop-win"; "desktop-mac"; "other"])
    /\ (is_desktop env = false ->
        ver = or_unknown (comfyui_tag env)
        /\ In ff ["git-windows"; "git-mac"; "git-linux"; "other"]).
Proof.
  intros Hmemo. unfold get_version_and_form_factor. rewrite Hmemo.
  unfold compute_version_and_form_factor. fold (is_desktop env).
  eexists _, _. split; [reflexivity|]. split; [reflexivity|].
  destruct (is_desktop env).
  - split; [apply or_unknown_nonempty|]. split; [|discriminate].
    intros _. split; [reflexivity|].
    destruct (String.eqb _ "windows"); [cbn; auto|].
    destruct (String.eqb _ "darwin"); cbn; auto.
  - split; [apply or_unknown_nonempty|]. split; [discriminate|].
    intros _. split; [reflexivity|].
    destruct (String.eqb _ "windows"); [cbn; auto|].
    destruct (String.eqb _ "darwin"); [cbn; auto|].
    destruct (String.eqb _ "linux"); cbn; auto.
Qed.

(** ** Further properties: the page fetcher *)

(** X3. [fetch_page] never raises and makes exactly one request, for
    the page's URL.  It returns the parsed body of a 200 response, and
    [None] after a transport failure, after any other status, and when
    the body of a 200 response does not parse. *)
Theorem fetch_page_absorbs_failures env page ver ff w :
  (exists r,
     fetch_page env page ver ff w = (Ok r, log_request (page_uri page ver ff) w))
  /\ (http_get env (page_uri page ver ff) = ConnectionFailed ->
      fst (fetch_page env page ver ff w) = Ok JNull)
  /\ (forall status body,
        http_get env (page_uri page ver ff) = Response status body ->
        status <> 200 ->
        fst (fetch_page env page ver ff w) = Ok JNull)
  /\ (http_get env (page_uri page ver ff) = Response 200 None ->
      fst (fetch_page env page ver ff w) = Ok JNull)
  /\ (forall j,
        http_get env (page_uri page ver ff) = Response 200 (Some j) ->
        fst (fetch_page env page ver ff w) = Ok j).
Proof.
  rewrite fetch_page_eq. unfold page_result. cbn [fst].
  split; [eauto|]. repeat apply conj.
  - by intros ->.
  - intros status body -> Hstatus. apply Z.eqb_neq in Hstatus. by rewrite Hstatus.
  - by intros ->.
  - by intros j ->.
Qed.

Lemma append_length s t :
  String.length (s +:+ t) = (String.length s + String.length t)%nat.
Proof.
  induction s as [|c s IH]; [reflexivity|].
  change (String c s +:+ t) with (String c (s +:+ t)).
  cbn [String.length]. by rewrite IH.
Qed.

Lemma append_cancel_r s1 s2 t : s1 +:+ t = s2 +:+ t -> s1 = s2.
Proof.
  revert s2. induction s1 as [|c s1 IH]; intros [|d s2] Heq.
  - reflexivity.
  - apply (f_equal String.length) in Heq.
    rewrite (append_length (String d s2)) in Heq. cbn [String.length] in Heq.
    change (String.length ("" +:+ t)) with (String.length t) in Heq. lia.
  - apply (f_equal String.length) in Heq.
    rewrite (append_length (String c s1)) in Heq. cbn [String.length] in Heq.
    change (String.length ("" +:+ t)) with (String.length t) in Heq. lia.
  - change (String c (s1 +:+ t) = String d (s2 +:+ t)) in Heq.
    injection Heq as -> Heq. f_equal. by apply IH.
Qed.

Lemma page_uri_inj_aux ver ff page page' :
  page_uri page ver ff = page_uri page' ver ff -> page = page'.
Proof.
  unfold page_uri. intros Heq.
  apply (inj (String.app base_url)) in Heq.
  apply (inj (String.app "/nodes?page=")) in Heq.
  apply append_cancel_r in Heq.
  by apply (inj pretty) in Heq.
Qed.

(** ** Further properties: the aggregator *)

Lemma fetch_all_requests env ver ff w fields total_pages first nodes :
  page_result env 1 ver ff = JObj fields ->
  assoc "totalPages" fields = Some (JNum total_pages) ->
  assoc "nodes" fields = Some first ->
  py_iter first = Ok nodes ->
  snd (fetch_all env ver ff w)
  = log_requests
      (page_uri 1 ver ff
         :: map (fun page => page_uri page ver ff)
                (completion_order (pool_schedule env) (seqZ 2 (total_pages - 1))))
      w.
Proof.
  intros Hfirst Htotal Hnodes Hiter.
  rewrite fetch_all_eq. cbn [snd]. unfold fetch_merged, bind, lift, ret.
  rewrite fetch_page_eq, Hfirst.
  assert (Htruthy : truthy (JObj fields) = true).
  { destruct fields; [discriminate | reflexivity]. }
  rewrite Htruthy. cbn [negb py_getitem]. rewrite Htotal, Hnodes, Hiter.
  cbn [py_int]. destruct (1 <? total_pages) eqn:Hgt.
  - rewrite run_tasks_eq, log_requests_cons. reflexivity.
  - apply Z.ltb_ge in Hgt.
    assert (Hempty : seqZ 2 (total_pages - 1) = []).
    { unfold seqZ. replace (Z.to_nat (total_pages - 1)) with 0%nat by lia.
      reflexivity. }
    by rewrite Hempty, completion_order_nil.
Qed.

(** X4. Once page 1 has given its page count and its entries,
    [fetch_all] requests page 1 first and then every page of
    [2..totalPages] exactly once, in some order: no page is skipped and
    none is retried, whatever the later pages return. *)
Theorem fetch_all_requests_each_page_once env ver ff w fields total_pages first nodes :
  page_result env 1 ver ff = JObj fields ->
  assoc "totalPages" fields = Some (JNum total_pages) ->
  assoc "nodes" fields = Some first ->
  py_iter first = Ok nodes ->
  exists rest,
    requested (snd (fetch_all env ver ff w))
    = requested w ++ page_uri 1 ver ff :: rest
    /\ rest ≡ₚ map (fun page => page_uri page ver ff) (seqZ 2 (total_pages - 1))
    /\ NoDup (page_uri 1 ver ff :: rest).
Proof.
  intros Hfirst Htotal Hnodes Hiter.
  rewrite (fetch_all_requests _ _ _ _ _ _ _ _ Hfirst Htotal Hnodes Hiter).
  eexists. split; [reflexivity|].
  assert (Hperm : map (fun page => page_uri page ver ff)
                      (completion_order (pool_schedule env) (seqZ 2 (total_pages - 1)))
                  ≡ₚ map (fun page => page_uri page ver ff) (seqZ 2 (total_pages - 1))).
  { apply Permutation_map, completion_order_perm. }
  split; [exact Hperm|]. rewrite Hperm.
  change (NoDup ((fun page => page_uri page ver ff) <$> 1 :: seqZ 2 (total_pages - 1))).
  apply NoDup_fmap_2.
  - intros page page'. apply page_uri_inj_aux.
  - apply NoDup_cons. split; [|apply NoDup_seqZ].
    rewrite elem_of_seqZ. lia.
Qed.

(** X5. Page 1 is load-bearing beyond the sentinel: a 200 response
    whose body is falsy (an empty object, list or string, zero, false,
    null) fails
    like a failed fetch, and an object without [totalPages], or with it
    but without [nodes], raises [KeyError] for that key.  In each case
    page 1 is the only request made. *)
Theorem fetch_all_first_page_errors env ver ff w :
  (truthy (page_result env 1 ver ff) = false ->
   fetch_all env ver ff w
   = (Raise (Exception "Failed to fetch first page"),
      log_request (page_uri 1 ver ff) w))
  /\ (forall fields,
        page_result env 1 ver ff = JObj fields ->
        fields <> [] ->
        assoc "totalPages" fields = None ->
        fetch_all env ver ff w
        = (Raise (KeyError "totalPages"), log_request (page_uri 1 ver ff) w))
  /\ (forall fields total,
        page_result env 1 ver ff = JObj fields ->
        assoc "totalPages" fields = Some total ->
        assoc "nodes" fields = None ->
        fetch_all env ver ff w
        = (Raise (KeyError "nodes"), log_request (page_uri 1 ver ff) w)).
Proof.
  repeat apply conj.
  - intros Hfalsy. unfold fetch_all, fetch_merged, bind, raise.
    by rewrite fetch_page_eq, Hfalsy.
  - intros fields Hfirst Hnonempty Hmissing.
    unfold fetch_all, fetch_merged, bind, lift.
    rewrite fetch_page_eq, Hfirst.
    destruct fields as [|field fields]; [done|].
    cbn [truthy negb py_getitem]. by rewrite Hmissing.
  - intros fields total Hfirst Htotal Hmissing.
    unfold fetch_all, fetch_merged, bind, lift.
    rewrite fetch_page_eq, Hfirst.
    destruct fields as [|field fields]; [discriminate|].
    cbn [truthy negb py_getitem]. by rewrite Htotal, Hmissing.
Qed.

Lemma assoc_set_lookup k v fields : assoc k (assoc_set k v fields) = Some v.
Proof.
  induction fields as [|[k' v'] fields IH]; cbn [assoc assoc_set].
  - by rewrite String.eqb_refl.
  - destruct (String.eqb k k') eqn:Hk; cbn [assoc]; by rewrite Hk.
Qed.

Lemma assoc_set_lookup_ne k k' v fields :
  k <> k' -> assoc k' (assoc_set k v fields) = assoc k' fields.
Proof.
  intros Hne. induction fields as [|[k0 v0] fields IH]; cbn [assoc assoc_set].
  - destruct (String.eqb k' k) eqn:Hk; [|reflexivity].
    apply String.eqb_eq in Hk. congruence.
  - destruct (String.eqb k k0) eqn:Hk; cbn [assoc].
    + apply String.eqb_eq in Hk. subst k0.
      destruct (String.eqb k' k) eqn:Hk'; [|reflexivity].
      apply String.eqb_eq in Hk'. congruence.
    + by rewrite IH.
Qed.

(** What the loop does to one entry. *)
Lemma normalize_cons node rest nodes' :
  normalize (node :: rest) = Ok nodes' ->
  exists node' rest',
    nodes' = node' :: rest'
    /\ normalize rest = Ok rest'
    /\ ((py_in "latest_version" node = Ok true /\ node' = node)
        \/ (exists fields,
              node = JObj fields
              /\ assoc "latest_version" fields = None
              /\ node' = JObj (assoc_set "latest_version" nightly fields))).
Proof.
  cbn [normalize]. unfold rbind.
  destruct (py_in "latest_version" node) as [[|]|e] eqn:Hin; [| |discriminate].
  - destruct (normalize rest) as [rest'|e]; [|discriminate].
    intros [= <-]. eauto 10.
  - destruct (py_setitem node "latest_version" nightly) as [node'|e] eqn:Hset;
      [|discriminate].
    destruct (normalize rest) as [rest'|e]; [|discriminate].
    intros [= <-]. exists node', rest'. split; [reflexivity|]. split; [reflexivity|].
    right. destruct node; try discriminate.
    cbn [py_setitem] in Hset. injection Hset as <-.
    cbn [py_in] in Hin. injection Hin as Hin.
    apply bool_decide_eq_false_1 in Hin.
    eexists. split; [reflexivity|]. split; [|reflexivity].
    destruct (assoc "latest_version" fields); [|reflexivity].
    exfalso. apply Hin. eauto.
Qed.

Lemma normalize_has_latest_version nodes nodes' :
  normalize nodes = Ok nodes' -> Forall has_latest_version nodes'.
Proof.
  revert nodes'. induction nodes as [|node nodes IH]; intros nodes' Hnorm.
  - injection Hnorm as <-. constructor.
  - destruct (normalize_cons _ _ _ Hnorm)
      as (node' & rest' & -> & Hrest & [[Hin ->] | (fields & -> & _ & ->)]);
      constructor; auto.
    unfold has_latest_version. cbn [py_in]. f_equal.
    apply bool_decide_eq_true_2. rewrite assoc_set_lookup. eauto.
Qed.

(** X6. The normalization loop is idempotent and keeps the list's
    length: run on its own output it changes nothing. *)
Theorem normalize_idempotent nodes nodes' :
  normalize nodes = Ok nodes' ->
  normalize nodes' = Ok nodes' /\ length nodes' = length nodes.
Proof.
  revert nodes'. induction nodes as [|node nodes IH]; intros nodes' Hnorm.
  - injection Hnorm as <-. split; reflexivity.
  - destruct (normalize_cons _ _ _ Hnorm) as (node' & rest' & -> & Hrest & Hnode).
    destruct (IH _ Hrest) as [Hagain Hlen].
    assert (Hin : py_in "latest_version" node' = Ok true).
    { destruct Hnode as [[Hin ->] | (fields & -> & _ & ->)]; [exact Hin|].
      cbn [py_in]. f_equal. apply bool_decide_eq_true_2.
      rewrite assoc_set_lookup. eauto. }
    split; [|cbn [length]; by rewrite Hlen].
    cbn [normalize]. unfold rbind. by rewrite Hin, Hagain.
Qed.

(** X7. The normalization loop keeps every entry in place and every
    field that is not [latest_version] as it was: the entry at an index
    is either the same value or the same object with [latest_version]
    added. *)
Theorem normalize_preserves_fields nodes nodes' i node :
  normalize nodes = Ok nodes' ->
  nodes !! i = Some node ->
  exists node',
    nodes' !! i = Some node'
    /\ (node' = node
        \/ exists fields fields',
             node = JObj fields /\ node' = JObj fields'
             /\ assoc "latest_version" fields = None
             /\ assoc "latest_version" fields' = Some nightly
             /\ forall k, k <> "latest_version" -> assoc k fields' = assoc k fields).
Proof.
  revert nodes' i. induction nodes as [|first nodes IH]; intros nodes' i Hnorm Hlook.
  - discriminate.
  - destruct (normalize_cons _ _ _ Hnorm) as (first' & rest' & -> & Hrest & Hfirst).
    destruct i as [|i]; cbn in Hlook |- *.
    + injection Hlook as <-. exists first'. split; [reflexivity|].
      destruct Hfirst as [[_ ->] | (fields & -> & Hnone & ->)]; [by left|].
      right. exists fields, (assoc_set "latest_version" nightly fields).
      repeat split; try done.
      * apply assoc_set_lookup.
      * intros k Hk. apply assoc_set_lookup_ne. congruence.
    + by apply IH.
Qed.

(** X8. Whatever the pages held, every entry [fetch_all] returns passes
    the test ['latest_version' in entry], and the result is always the
    one-key object [{'nodes': [...]}]. *)
Theorem fetch_all_result_invariant env ver ff w obj :
  fst (fetch_all env ver ff w) = Ok obj ->
  exists nodes,
    obj = JObj [("nodes", JArr nodes)]
    /\ Forall (fun node => py_in "latest_version" node = Ok true) nodes.
Proof.
  rewrite fetch_all_eq. cbn [fst].
  destruct (fst (fetch_merged env ver ff w)) as [merged|e]; [|discriminate].
  destruct (normalize merged) as [nodes|e] eqn:Hnorm; [|discriminate].
  intros [= <-]. exists nodes. split; [reflexivity|].
  by apply (normalize_has_latest_version merged).
Qed.

(** ** Further properties: the tiered cache *)

Lemma cache_keys_distinct node_id version node_id' :
  install_cache_key node_id version <> versions_cache_key node_id'
  /\ install_cache_key node_id version <> nodes_uri
  /\ versions_cache_key node_id' <> nodes_uri.
Proof.
  repeat split; intros Heq; apply (f_equal (String.get 0)) in Heq;
    cbv in Heq; discriminate.
Qed.

Section TieredCacheMore.
Context `{ManagerUtil}.

(** X9. The tiers are consulted in order.  A memory hit answers
    without opening a file or making a request, whatever the persisted
    tier holds.  On a memory miss a persisted listing is opened once,
    answers without a request and is promoted: the next call is answered
    from memory and opens nothing. *)
Theorem get_cnr_data_tier_order env dont_wait w :
  (forall entry,
     memory_cache w !! nodes_uri = Some entry ->
     get_cnr_data env true dont_wait w = (pyval_getitem entry "nodes", w))
  /\ (forall data,
        memory_cache w !! nodes_uri = None ->
        fs w !! get_cache_path nodes_uri = Some (JsonFile data) ->
        let out := get_cnr_data env true dont_wait w in
        fst out = py_getitem data "nodes"
        /\ requested (snd out) = requested w
        /\ opened (snd out) = opened w ++ [get_cache_path nodes_uri]
        /\ forall env' dont_wait',
             get_cnr_data env' true dont_wait' (snd out) = (fst out, snd out)).
Proof.
  split.
  - intros entry Hmem. by apply get_cnr_data_memory_hit.
  - intros data Hmem Hdisk. cbn zeta.
    rewrite (get_cnr_data_disk_hit _ _ _ _ Hmem Hdisk). cbn [fst snd].
    repeat split.
    intros env' dont_wait'.
    rewrite (get_cnr_data_memory_hit env' dont_wait' _ (PJson data));
      [reflexivity|].
    cbn. apply lookup_insert_eq.
Qed.

(** X10. With [cache_mode=True] and [dont_wait=True], [get_cnr_data]
    never touches the network, in any state of the caches. *)
Theorem get_cnr_data_dont_wait_offline env w :
  requested (snd (get_cnr_data env true true w)) = requested w.
Proof.
  destruct (memory_cache w !! nodes_uri) as [entry|] eqn:Hmem.
  - by rewrite (get_cnr_data_memory_hit _ _ _ _ Hmem).
  - destruct (fs w !! get_cache_path nodes_uri) as [f|] eqn:Hdisk.
    + destruct f as [data| |].
      * by rewrite (get_cnr_data_disk_hit _ _ _ _ Hmem Hdisk).
      * by rewrite (get_cnr_data_unparsable _ _ _ _ Hmem Hdisk).
      * by rewrite (get_cnr_data_unparsable _ _ _ _ Hmem Hdisk).
    + by rewrite (get_cnr_data_warming _ _ Hmem Hdisk).
Qed.

(** X11. Errors of the persisted tier are not handled.  On a memory
    miss, a cache file that is not JSON makes [get_cnr_data] raise the
    decode error instead of fetching, and nothing is memoized.  A cache
    file that parses but has no usable [nodes] entry is memoized before
    the lookup fails, so this call and every later cached call raise the
    same error. *)
Theorem get_cnr_data_bad_cache_file env dont_wait w :
  memory_cache w !! nodes_uri = None ->
  (forall f,
     fs w !! get_cache_path nodes_uri = Some f ->
     (forall j, f <> JsonFile j) ->
     let out := get_cnr_data env true dont_wait w in
     fst out = Raise JSONDecodeError
     /\ memory_cache (snd out) = memory_cache w
     /\ requested (snd out) = requested w)
  /\ (forall data e,
        fs w !! get_cache_path nodes_uri = Some (JsonFile data) ->
        py_getitem data "nodes" = Raise e ->
        let out := get_cnr_data env true dont_wait w in
        fst out = Raise e
        /\ memory_cache (snd out) !! nodes_uri = Some (PJson data)
        /\ forall env' dont_wait',
             get_cnr_data env' true dont_wait' (snd out) = (Raise e, snd out)).
Proof.
  intros Hmem. split.
  - intros f Hdisk Hbad. cbn zeta.
    by rewrite (get_cnr_data_unparsable _ _ _ _ Hmem Hdisk Hbad).
  - intros data e Hdisk Hnodes. cbn zeta.
    rewrite (get_cnr_data_disk_hit _ _ _ _ Hmem Hdisk). cbn [fst snd].
    split; [exact Hnodes|].
    assert (Hnow : memory_cache
              (set_memory_cache nodes_uri (PJson data)
                 (log_open (get_cache_path nodes_uri) w)) !! nodes_uri
            = Some (PJson data)).
    { cbn. apply lookup_insert_eq. }
    split; [exact Hnow|].
    intros env' dont_wait'. rewrite (get_cnr_data_memory_hit _ _ _ _ Hnow).
    cbn [pyval_getitem]. by rewrite Hnodes.
Qed.

(** X12. A failed refresh does not clobber the in-memory tier: when
    [fetch_all] raises during a [cache_mode=False] call, later cached
    calls still answer from the entry that was there before. *)
Theorem get_cnr_data_failed_refresh_keeps_stale env env' dont_wait dont_wait' w entry e :
  memory_cache w !! nodes_uri = Some entry ->
  fst (live_fetch_all env w) = Raise e ->
  let out := get_cnr_data env false dont_wait w in
  fst out = Ok (JObj [])
  /\ get_cnr_data env' true dont_wait' (snd out)
     = (pyval_getitem entry "nodes", snd out).
Proof.
  intros Hmem Hfail. cbn zeta.
  change (get_cnr_data env false dont_wait w) with (live_fetch env w).
  rewrite (live_fetch_failure _ _ _ Hfail). cbn [fst snd].
  split; [reflexivity|]. apply get_cnr_data_memory_hit.
  destruct (live_fetch_all_frame env w) as (rest & _ & Hsame & _).
  cbn zeta in Hsame. by rewrite Hsame.
Qed.

(** X13. A successful refresh survives a restart: a new process over
    the same files, asked with [cache_mode=True], returns the nodes the
    refresh returned, read from the cache file and without a request. *)
Theorem get_cnr_data_survives_restart env env' dont_wait dont_wait' w obj :
  fst (live_fetch_all env w) = Ok obj ->
  let out := get_cnr_data env false dont_wait w in
  let again := get_cnr_data env' true dont_wait' (restart (snd out)) in
  fst again = fst out
  /\ requested (snd again) = []
  /\ opened (snd again) = [get_cache_path nodes_uri]
  /\ memory_cache (snd again) !! nodes_uri = Some (PJson obj).
Proof.
  intros Hok. cbn zeta.
  change (get_cnr_data env false dont_wait w) with (live_fetch env w).
  destruct (live_fetch_success env w obj Hok) as (nodes & -> & ->).
  cbn [fst snd].
  rewrite (get_cnr_data_disk_hit env' dont_wait' _ (nodes_obj nodes)).
  - cbn [fst snd]. split; [reflexivity|]. split; [reflexivity|].
    split; [reflexivity|]. cbn. apply lookup_insert_eq.
  - apply lookup_empty.
  - cbn. apply lookup_insert_eq.
Qed.

Lemma live_fetch_other_keys env w k :
  k <> nodes_uri ->
  memory_cache (snd (live_fetch env w)) !! k = memory_cache w !! k.
Proof.
  intros Hk. rewrite live_fetch_eq.
  destruct (live_fetch_all_frame env w) as (rest & _ & Hsame & _).
  cbn zeta in Hsame.
  destruct (live_fetch_all env w) as [[obj|e] w1]; cbn [fst snd] in *.
  - cbn. rewrite lookup_insert_ne by done. by rewrite Hsame.
  - by rewrite Hsame.
Qed.

(** X14. The three users of [memory_cache] keep out of each other's
    way: the keys of the install lookup, of the versions lookup and of
    the listing are pairwise different, so a point lookup never changes
    the listing's entry and [get_cnr_data] changes no other entry. *)
Theorem memory_cache_users_do_not_collide env w :
  (forall node_id version node_id',
     install_cache_key node_id version <> versions_cache_key node_id'
     /\ install_cache_key node_id version <> nodes_uri
     /\ versions_cache_key node_id' <> nodes_uri)
  /\ (forall node_id version,
        memory_cache (snd (install_node env node_id version w)) !! nodes_uri
        = memory_cache w !! nodes_uri)
  /\ (forall node_id,
        memory_cache (snd (all_versions_of_node env node_id w)) !! nodes_uri
        = memory_cache w !! nodes_uri)
  /\ (forall cache_mode dont_wait k,
        k <> nodes_uri ->
        memory_cache (snd (get_cnr_data env cache_mode dont_wait w)) !! k
        = memory_cache w !! k).
Proof.
  split; [apply cache_keys_distinct|]. repeat apply conj.
  - intros node_id version.
    destruct (cache_keys_distinct node_id version "") as (_ & Hne & _).
    unfold install_node, requests_get, bind, gets, modify, lift, ret.
    cbn [fst snd].
    destruct (memory_cache w !! install_cache_key node_id version); [reflexivity|].
    destruct (http_get env (install_url node_id version)) as [status body|];
      [|reflexivity].
    cbn [fst snd]. destruct (status =? 200); [|reflexivity].
    destruct (response_json (status, body)) as [data|e]; [|reflexivity].
    destruct (map_node_version data) as [nv|e]; [|reflexivity].
    cbn. by rewrite lookup_insert_ne.
  - intros node_id.
    destruct (cache_keys_distinct "" None node_id) as (_ & _ & Hne).
    unfold all_versions_of_node, requests_get, bind, gets, modify, lift, ret.
    cbn [fst snd].
    destruct (memory_cache w !! versions_cache_key node_id); [reflexivity|].
    destruct (http_get env (versions_url node_id)) as [status body|];
      [|reflexivity].
    cbn [fst snd]. destruct (status =? 200); [|reflexivity].
    destruct (response_json (status, body)) as [data|e]; [|reflexivity].
    cbn. by rewrite lookup_insert_ne.
  - intros cache_mode dont_wait k Hk.
    destruct cache_mode; [|by apply live_fetch_other_keys].
    destruct (memory_cache w !! nodes_uri) as [entry|] eqn:Hmem.
    { by rewrite (get_cnr_data_memory_hit _ _ _ _ Hmem). }
    destruct (fs w !! get_cache_path nodes_uri) as [f|] eqn:Hdisk.
    + destruct f as [data| |].
      * rewrite (get_cnr_data_disk_hit _ _ _ _ Hmem Hdisk). cbn.
        by rewrite lookup_insert_ne.
      * by rewrite (get_cnr_data_unparsable _ _ _ _ Hmem Hdisk).
      * by rewrite (get_cnr_data_unparsable _ _ _ _ Hmem Hdisk).
    + destruct dont_wait.
      * by rewrite (get_cnr_data_warming _ _ Hmem Hdisk).
      * rewrite get_cnr_data_falls_through by (right; auto).
        by apply live_fetch_other_keys.
Qed.

End TieredCacheMore.

(** ** Further properties: the point lookups *)

Lemma install_node_hit env node_id version w hit :
  memory_cache w !! install_cache_key node_id version = Some hit ->
  install_node env node_id version w = (Ok hit, w).
Proof.
  intros Hhit. unfold install_node, bind, gets, ret. cbn [fst snd]. by rewrite Hhit.
Qed.

Lemma install_node_entry env node_id version w r :
  fst (install_node env node_id version w) = Ok r ->
  r <> PNone ->
  memory_cache (snd (install_node env node_id version w))
    !! install_cache_key node_id version = Some r.
Proof.
  destruct (memory_cache w !! install_cache_key node_id version) as [hit|] eqn:Hkey.
  - rewrite (install_node_hit _ _ _ _ _ Hkey). cbn [fst snd]. congruence.
  - unfold install_node, requests_get, bind, gets, modify, lift, ret.
    cbn [fst snd]. rewrite Hkey.
    destruct (http_get env (install_url node_id version)) as [status body|];
      [|discriminate].
    cbn [fst snd]. destruct (status =? 200); [|cbn; congruence].
    destruct (response_json (status, body)) as [data|e]; [|discriminate].
    destruct (map_node_version data) as [nv|e]; [|discriminate].
    cbn. intros [= <-] _. apply lookup_insert_eq.
Qed.

(** X15. A found install record is memoized: after [install_node]
    returned a record, the same lookup returns it again under any
    surroundings, without a request and without changing anything. *)
Theorem install_node_memoized env env' node_id version w r :
  fst (install_node env node_id version w) = Ok r ->
  r <> PNone ->
  install_node env' node_id version (snd (install_node env node_id version w))
  = (Ok r, snd (install_node env node_id version w)).
Proof.
  intros Hfirst Hfound. apply install_node_hit. by apply install_node_entry.
Qed.

(** X16. The memo key of an install lookup does not tell "no version"
    from the empty version and the version [latest]: once the latest
    record of a package is memoized, asking for either of them returns
    that record without a request, although each would request another
    URL. *)
Theorem install_node_latest_aliases env env' node_id w r :
  fst (install_node env node_id None w) = Ok r ->
  r <> PNone ->
  let after := snd (install_node env node_id None w) in
  install_node env' node_id (Some "latest") after = (Ok r, after)
  /\ install_node env' node_id (Some "") after = (Ok r, after)
  /\ install_url node_id (Some "latest") <> install_url node_id None
  /\ install_url node_id (Some "") <> install_url node_id None.
Proof.
  intros Hfirst Hfound. cbn zeta.
  pose proof (install_node_entry _ _ _ _ _ Hfirst Hfound) as Hentry.
  split; [by apply install_node_hit|]. split; [by apply install_node_hit|].
  unfold install_url.
  split; intros Heq;
    apply (inj (String.app base_url)), (inj (String.app "/nodes/")),
      (inj (String.app node_id)) in Heq; discriminate.
Qed.

(** X17. A 200 response whose payload cannot be mapped makes
    [install_node] raise the mapper's error; the request has been made
    and nothing is memoized. *)
Theorem install_node_invalid_payload env node_id version w data e :
  memory_cache w !! install_cache_key node_id version = None ->
  http_get env (install_url node_id version) = Response 200 (Some data) ->
  map_node_version data = Raise e ->
  install_node env node_id version w
  = (Raise e, log_request (install_url node_id version) w).
Proof.
  intros Hkey Hget Hmap.
  unfold install_node, requests_get, bind, gets, modify, lift, ret.
  cbn [fst snd]. rewrite Hkey, Hget. cbn. by rewrite Hmap.
Qed.

Lemma all_versions_of_node_hit env node_id w hit :
  memory_cache w !! versions_cache_key node_id = Some hit ->
  all_versions_of_node env node_id w = (Ok hit, w).
Proof.
  intros Hhit. unfold all_versions_of_node, bind, gets, ret. cbn [fst snd].
  by rewrite Hhit.
Qed.

Lemma all_versions_of_node_found env node_id w data :
  memory_cache w !! versions_cache_key node_id = None ->
  http_get env (versions_url node_id) = Response 200 (Some data) ->
  all_versions_of_node env node_id w
  = (Ok (PJson data),
     set_memory_cache (versions_cache_key node_id) (PJson data)
       (log_request (versions_url node_id) w)).
Proof.
  intros Hkey Hget.
  unfold all_versions_of_node, requests_get, bind, gets, modify, lift, ret.
  cbn [fst snd]. by rewrite Hkey, Hget.
Qed.

(** X18. [all_versions_of_node] passes a 200 payload through as it is
    and memoizes it under the package's key: the next lookup returns the
    same payload under any surroundings and makes no request. *)
Theorem all_versions_of_node_memoized env node_id w data :
  memory_cache w !! versions_cache_key node_id = None ->
  http_get env (versions_url node_id) = Response 200 (Some data) ->
  let out := all_versions_of_node env node_id w in
  fst out = Ok (PJson data)
  /\ requested (snd out) = requested w ++ [versions_url node_id]
  /\ forall env', all_versions_of_node env' node_id (snd out) = (Ok (PJson data), snd out).
Proof.
  intros Hkey Hget. cbn zeta.
  rewrite (all_versions_of_node_found _ _ _ _ Hkey Hget). cbn [fst snd].
  split; [reflexivity|]. split; [reflexivity|].
  intros env'. apply all_versions_of_node_hit. cbn. apply lookup_insert_eq.
Qed.

(** X19. The error [map_node_version] raises tells what was wrong: a
    payload that is not an object raises [AttributeError], an object
    without [id] raises [KeyError('id')] even when [version] is missing
    too, and an object with [id] but without [version] raises
    [KeyError('version')]. *)
Theorem map_node_version_errors payload :
  (~ is_object payload -> map_node_version payload = Raise AttributeError)
  /\ (forall fields,
        payload = JObj fields ->
        assoc "id" fields = None ->
        map_node_version payload = Raise (KeyError "id"))
  /\ (forall fields i,
        payload = JObj fields ->
        assoc "id" fields = Some i ->
        assoc "version" fields = None ->
        map_node_version payload = Raise (KeyError "version")).
Proof.
  repeat apply conj.
  - intros Hnot. destruct payload; try reflexivity. destruct Hnot. by eexists.
  - intros fields -> Hid. unfold map_node_version. cbn [py_get py_getitem rbind].
    by rewrite Hid.
  - intros fields i -> Hid Hver. unfold map_node_version.
    cbn [py_get py_getitem rbind]. by rewrite Hid, Hver.
Qed.

(** ** Further properties: the local metadata reader *)

Lemma ascii_lower_idempotent c : ascii_lower (ascii_lower c) = ascii_lower c.
Proof. destruct c as [[] [] [] [] [] [] [] []]; reflexivity. Qed.

Lemma str_lower_idempotent s : str_lower (str_lower s) = str_lower s.
Proof.
  induction s as [|c s IH]; [reflexivity|].
  cbn [str_lower]. by rewrite ascii_lower_idempotent, IH.
Qed.

Section LocalMetadataMore.
Context `{ManagerUtil}.

(** X20. Without the descriptor or without the tracking marker a
    directory is not a registry package: on a memo miss [read_cnr_info]
    returns [None] and leaves everything as it was; no file is opened,
    however well formed the descriptor is. *)
Theorem read_cnr_info_requires_both_files fullpath w :
  cnr_info_cache w !! fullpath = None ->
  fs w !! pyproject_path fullpath = None \/ fs w !! tracking_path fullpath = None ->
  read_cnr_info fullpath w = (Ok JNull, w).
Proof.
  intros Hmiss Hfiles.
  unfold read_cnr_info, path_exists, try_except, bind, gets, ret.
  cbn [fst snd]. rewrite Hmiss.
  fold (pyproject_path fullpath) (tracking_path fullpath).
  destruct Hfiles as [Hnone | Hnone]; rewrite Hnone.
  - rewrite (bool_decide_eq_false_2 (is_Some None))
      by (intros [? ?]; discriminate).
    reflexivity.
  - rewrite (bool_decide_eq_false_2 (is_Some None))
      by (intros [? ?]; discriminate).
    rewrite orb_true_r. reflexivity.
Qed.

(** X21. With both files present and a descriptor whose [project]
    table has a [name] that is a string of ASCII characters and a
    [version] the normalizer accepts, [read_cnr_info] returns the identity
    made of the trimmed, lowercased name, the normalized version and the
    repository URL ([None] when the descriptor gives none), opens the
    descriptor only and memoizes the identity under the path. *)
Theorem read_cnr_info_valid fullpath w data project raw_name raw_version version repository :
  cnr_info_cache w !! fullpath = None ->
  fs w !! pyproject_path fullpath = Some (TomlFile (JObj data)) ->
  is_Some (fs w !! tracking_path fullpath) ->
  assoc "project" data = Some (JObj project) ->
  assoc "name" project = Some (JStr raw_name) ->
  is_ascii raw_name = true ->
  assoc "version" project = Some raw_version ->
  strict_version_str raw_version = Ok version ->
  py_get (field_or "urls" (JObj []) project) "Repository" JNull = Ok repository ->
  str_lower (str_strip raw_name) <> "" ->
  version <> "" ->
  let result :=
    JObj [("id", JStr (str_lower (str_strip raw_name)));
          ("version", JStr version); ("url", repository)] in
  read_cnr_info fullpath w
  = (Ok result,
     set_cnr_info_cache fullpath result (log_open (pyproject_path fullpath) w)).
Proof.
  intros Hmiss Htoml Htracking Hproject Hname _ Hversion Hstrict Hrepo Hid Hver.
  cbn zeta.
  unfold read_cnr_info, path_exists, toml_load, try_except, bind, gets, ret,
    lift, modify.
  cbn [fst snd]. rewrite Hmiss.
  fold (pyproject_path fullpath) (tracking_path fullpath).
  rewrite Htoml. rewrite !bool_decide_eq_true_2 by eauto.
  cbn [negb orb]. rewrite Htoml. cbv beta iota.
  cbn [py_get]. rewrite Hproject. cbv beta iota. cbn [py_get].
  rewrite Hname, Hversion. cbv beta iota. cbn [strip_lower]. rewrite Hstrict.
  cbv beta iota. unfold field_or in Hrepo.
  apply String.eqb_neq in Hid, Hver.
  destruct (assoc "urls" project) as [urls|]; rewrite Hrepo; cbv beta iota;
    by rewrite Hid, Hver.
Qed.

(** X22. An identity [read_cnr_info] derives from the files always has
    the three keys [id], [version] and [url], a non-empty version and a
    non-empty, lowercase [id]. *)
Theorem read_cnr_info_identity_shape fullpath w r :
  cnr_info_cache w !! fullpath = None ->
  fst (read_cnr_info fullpath w) = Ok r ->
  r <> JNull ->
  exists name version url,
    r = JObj [("id", JStr name); ("version", JStr version); ("url", url)]
    /\ name <> "" /\ version <> "" /\ str_lower name = name.
Proof.
  intros Hmiss Hres Hvalid. revert Hres.
  unfold read_cnr_info, path_exists, toml_load, try_except, bind, gets, ret,
    lift, modify.
  cbn [fst snd]. rewrite Hmiss.
  repeat (first
    [ progress cbv beta iota
    | progress cbn [fst snd]
    | destruct_innermost_eqn ]);
    intros [= <-]; try congruence.
  eexists _, _, _. split; [reflexivity|].
  match goal with
  | Hcond : negb (String.eqb _ "") && negb (String.eqb _ "") = true |- _ =>
      apply andb_prop in Hcond as [Hname Hversion];
      apply negb_true_iff, String.eqb_neq in Hname;
      apply negb_true_iff, String.eqb_neq in Hversion
  end.
  split; [exact Hname|]. split; [exact Hversion|].
  match goal with
  | Hstrip : strip_lower ?v = Ok _ |- _ =>
      destruct v; try discriminate; injection Hstrip as <-
  end.
  apply str_lower_idempotent.
Qed.

(** X23. [read_cnr_info] works on the local files only: it never makes
    a request, never writes a file and never touches [memory_cache]; the
    only file it may open is the descriptor of the path. *)
Theorem read_cnr_info_frame fullpath w :
  let after := snd (read_cnr_info fullpath w) in
  requested after = requested w
  /\ fs after = fs w
  /\ memory_cache after = memory_cache w
  /\ (opened after = opened w
      \/ opened after = opened w ++ [pyproject_path fullpath]).
Proof.
  cbn zeta.
  unfold read_cnr_info, path_exists, toml_load, try_except, bind, gets, ret,
    lift, modify.
  fold (pyproject_path fullpath).
  repeat (first
    [ progress cbv beta iota
    | progress cbn [fst snd requested fs memory_cache opened log_open
                    set_cnr_info_cache]
    | destruct_innermost ]);
    auto.
Qed.

End LocalMetadataMore.

(** ** Further properties: the package identifier file *)

Lemma char_count_ascii s : is_ascii s = true -> char_count s = String.length s.
Proof.
  induction s as [|c s IH]; [reflexivity|].
  cbn [is_ascii char_count String.length]. intros Hascii.
  apply andb_prop in Hascii as [Hc Hs]. apply Nat.ltb_lt in Hc.
  replace (128 <=? nat_of_ascii c)%nat with false
    by (symmetry; apply Nat.leb_gt; lia).
  cbn [andb]. by rewrite IH.
Qed.

Lemma universal_newlines_no_carriage_return s :
  no_carriage_return s = true -> universal_newlines s = s.
Proof.
  induction s as [|c s IH]; [reflexivity|].
  cbn [no_carriage_return universal_newlines]. intros Hno.
  apply andb_prop in Hno as [Hc Hs]. apply negb_true_iff in Hc.
  rewrite Hc. by rewrite IH.
Qed.

(** X24. When the identifier file does not exist and can be created,
    [generate_cnr_id], given an identifier of ASCII characters, writes it
    and returns the number of characters written; [read_cnr_id] then
    returns the identifier with its line endings as a text-mode read
    gives them and surrounding whitespace removed, which is the trimmed
    identifier itself when it holds no carriage return; no other file has
    changed. *)
Theorem generate_then_read_cnr_id fullpath cnr_id g :
  texts g !! cnr_id_path fullpath = None ->
  can_create g (cnr_id_path fullpath) = true ->
  is_ascii cnr_id = true ->
  let out := generate_cnr_id fullpath cnr_id g in
  fst out = JNum (Z.of_nat (String.length cnr_id))
  /\ read_cnr_id fullpath (snd out) = JStr (str_strip (universal_newlines cnr_id))
  /\ (no_carriage_return cnr_id = true ->
      read_cnr_id fullpath (snd out) = JStr (str_strip cnr_id))
  /\ forall path, path <> cnr_id_path fullpath ->
       texts (snd out) !! path = texts g !! path.
Proof.
  intros Hnew Hcreate Hascii. cbn zeta. unfold generate_cnr_id, read_cnr_id.
  rewrite Hnew, Hcreate. cbn [fst snd texts].
  rewrite lookup_insert_eq.
  split; [by rewrite char_count_ascii|]. split; [reflexivity|]. split.
  - intros Hno. by rewrite universal_newlines_no_carriage_return.
  - intros path Hpath. by rewrite lookup_insert_ne.
Qed.


(** ** The further properties at the sample data *)

Lemma version_and_form_factor_values_witness :
  exists ver ff,
    fst (get_version_and_form_factor Fixture.desktop Sample.empty_world)
    = Ok (ver, ff)
    /\ ver = "unknown"
    /\ In ff ["desktop-win"; "desktop-mac"; "other"].
Proof.
  destruct (version_and_form_factor_values Fixture.desktop Sample.empty_world)
    as (ver & ff & Hfst & _ & _ & Hdesktop & _); [reflexivity|].
  destruct (Hdesktop eq_refl) as [Hver Hff].
  exists ver, ff. split; [exact Hfst|]. split; [exact Hver | exact Hff].
Defined.

Lemma fetch_page_absorbs_failures_witness :
  fst (fetch_page Sample.registry 2 Sample.ver Sample.ff Sample.empty_world) = Ok JNull
  /\ fst (fetch_page Sample.registry 5 Sample.ver Sample.ff Sample.empty_world) = Ok JNull.
Proof.
  split.
  - destruct (fetch_page_absorbs_failures
                Sample.registry 2 Sample.ver Sample.ff Sample.empty_world)
      as (_ & Hdown & _).
    apply Hdown. reflexivity.
  - destruct (fetch_page_absorbs_failures
                Sample.registry 5 Sample.ver Sample.ff Sample.empty_world)
      as (_ & _ & Hstatus & _).
    apply (Hstatus 500 None); [reflexivity | lia].
Defined.

Lemma fetch_all_requests_each_page_once_witness :
  exists rest,
    requested (snd (fetch_all Sample.registry Sample.ver Sample.ff Sample.empty_world))
    = page_uri 1 Sample.ver Sample.ff :: rest
    /\ rest ≡ₚ map (fun page => page_uri page Sample.ver Sample.ff) [2; 3; 4; 5].
Proof.
  destruct (fetch_all_requests_each_page_once
              Sample.registry Sample.ver Sample.ff Sample.empty_world
              [("nodes", JArr [Sample.released "a" "1.0.0"; Sample.pack "b"]);
               ("totalPages", JNum 5)]
              5 (JArr [Sample.released "a" "1.0.0"; Sample.pack "b"])
              [Sample.released "a" "1.0.0"; Sample.pack "b"])
    as (rest & Hlog & Hperm & _); try reflexivity.
  exists rest. split; [exact Hlog | exact Hperm].
Defined.

Lemma fetch_all_first_page_errors_witness :
  fst (fetch_all Sample.garbled Sample.ver Sample.ff Sample.empty_world)
  = Raise (Exception "Failed to fetch first page")
  /\ fst (fetch_all (Sample.ambient_of
                       (fun _ => Response 200 (Some (JObj [("nodes", JArr [])]))) [])
                    Sample.ver Sample.ff Sample.empty_world)
     = Raise (KeyError "totalPages").
Proof.
  split.
  - destruct (fetch_all_first_page_errors
                Sample.garbled Sample.ver Sample.ff Sample.empty_world)
      as (Hfalsy & _).
    rewrite Hfalsy; reflexivity.
  - destruct (fetch_all_first_page_errors
                (Sample.ambient_of
                   (fun _ => Response 200 (Some (JObj [("nodes", JArr [])]))) [])
                Sample.ver Sample.ff Sample.empty_world)
      as (_ & Hkey & _).
    rewrite (Hkey [("nodes", JArr [])]); [reflexivity..|discriminate|reflexivity].
Defined.

Lemma normalize_idempotent_witness :
  normalize [JObj [("id", JStr "b"); ("latest_version", nightly)];
             Sample.released "a" "1.0.0"]
  = Ok [JObj [("id", JStr "b"); ("latest_version", nightly)];
        Sample.released "a" "1.0.0"].
Proof.
  apply (normalize_idempotent [Sample.pack "b"; Sample.released "a" "1.0.0"]).
  reflexivity.
Defined.

Lemma normalize_preserves_fields_witness :
  exists node',
    [JObj [("id", JStr "b"); ("latest_version", nightly)]] !! 0%nat = Some node'
    /\ (node' = Sample.pack "b"
        \/ exists fields fields',
             Sample.pack "b" = JObj fields /\ node' = JObj fields'
             /\ assoc "latest_version" fields = None
             /\ assoc "latest_version" fields' = Some nightly
             /\ forall k, k <> "latest_version" -> assoc k fields' = assoc k fields).
Proof.
  apply (normalize_preserves_fields [Sample.pack "b"]); reflexivity.
Defined.

Lemma fetch_all_result_invariant_witness :
  exists nodes,
    nodes_obj (map with_latest_version
                 [Sample.released "a" "1.0.0"; Sample.pack "b"; Sample.pack "c";
                  Sample.released "d" "2.0.0"])
    = JObj [("nodes", JArr nodes)]
    /\ Forall (fun node => py_in "latest_version" node = Ok true) nodes.
Proof.
  apply (fetch_all_result_invariant
           Sample.registry Sample.ver Sample.ff Sample.empty_world).
  reflexivity.
Defined.

Lemma get_cnr_data_tier_order_witness :
  @get_cnr_data Sample.util Sample.offline true false Fixture.stale
  = (Ok (JArr [Sample.released "old" "1.0.0"]), Fixture.stale)
  /\ fst (@get_cnr_data Sample.util Sample.offline true false
            (Fixture.on_disk (JsonFile (Fixture.listing ["kept"]))))
     = Ok (JArr [Sample.released "kept" "1.0.0"]).
Proof.
  split.
  - apply (proj1 (@get_cnr_data_tier_order Sample.util Sample.offline false
                    Fixture.stale) (PJson (Fixture.listing ["old"]))).
    reflexivity.
  - apply (proj2 (@get_cnr_data_tier_order Sample.util Sample.offline false
                    (Fixture.on_disk (JsonFile (Fixture.listing ["kept"]))))
                 (Fixture.listing ["kept"])); reflexivity.
Defined.

Lemma get_cnr_data_bad_cache_file_witness :
  fst (@get_cnr_data Sample.util Sample.registry true false
         (Fixture.on_disk OtherFile))
  = Raise JSONDecodeError
  /\ fst (@get_cnr_data Sample.util Sample.registry true false
            (Fixture.on_disk (JsonFile (JObj [("entries", JArr [])]))))
     = Raise (KeyError "nodes").
Proof.
  split.
  - apply (proj1 (@get_cnr_data_bad_cache_file Sample.util Sample.registry false
                    (Fixture.on_disk OtherFile) eq_refl) OtherFile);
      [reflexivity | discriminate].
  - apply (proj2 (@get_cnr_data_bad_cache_file Sample.util Sample.registry false
                    (Fixture.on_disk (JsonFile (JObj [("entries", JArr [])])))
                    eq_refl)
                 (JObj [("entries", JArr [])]) (KeyError "nodes"));
      reflexivity.
Defined.

Lemma get_cnr_data_failed_refresh_keeps_stale_witness :
  fst (@get_cnr_data Sample.util Sample.offline false true Fixture.stale)
  = Ok (JObj [])
  /\ fst (@get_cnr_data Sample.util Sample.offline true true
            (snd (@get_cnr_data Sample.util Sample.offline false true Fixture.stale)))
     = Ok (JArr [Sample.released "old" "1.0.0"]).
Proof.
  destruct (@get_cnr_data_failed_refresh_keeps_stale Sample.util
              Sample.offline Sample.offline true true Fixture.stale
              (PJson (Fixture.listing ["old"]))
              (Exception "Failed to fetch first page"))
    as (Hempty & Hstale); [reflexivity..|].
  split; [exact Hempty|]. by rewrite Hstale.
Defined.

Lemma get_cnr_data_survives_restart_witness :
  fst (@get_cnr_data Sample.util Sample.offline true true
         (restart (snd (@get_cnr_data Sample.util Sample.registry false true
                          Sample.empty_world))))
  = fst (@get_cnr_data Sample.util Sample.registry false true Sample.empty_world).
Proof.
  apply (@get_cnr_data_survives_restart Sample.util Sample.registry Sample.offline
           true true Sample.empty_world
           (nodes_obj (map with_latest_version
              [Sample.released "a" "1.0.0"; Sample.pack "b"; Sample.pack "c";
               Sample.released "d" "2.0.0"]))).
  reflexivity.
Defined.

Lemma memory_cache_users_do_not_collide_witness :
  memory_cache (snd (install_node Fixture.shop "my-pack" None Fixture.stale))
    !! nodes_uri
  = Some (PJson (Fixture.listing ["old"])).
Proof.
  destruct (@memory_cache_users_do_not_collide Sample.util Fixture.shop Fixture.stale)
    as (_ & Hinstall & _).
  rewrite Hinstall. reflexivity.
Defined.

Lemma install_node_memoized_witness :
  fst (install_node Sample.offline "my-pack" None
         (snd (install_node Fixture.shop "my-pack" None Sample.empty_world)))
  = Ok (PNodeVersion
          {| changelog := JStr ""; dependencies := JArr [];
             deprecated := JBool false; id := JStr "my-pack";
             version := JStr "1.2.0";
             download_url := JStr "https://example.org/my-pack-1.2.0.zip" |}).
Proof.
  rewrite (install_node_memoized Fixture.shop Sample.offline "my-pack" None
             Sample.empty_world
             (PNodeVersion
                {| changelog := JStr ""; dependencies := JArr [];
                   deprecated := JBool false; id := JStr "my-pack";
                   version := JStr "1.2.0";
                   download_url := JStr "https://example.org/my-pack-1.2.0.zip" |}));
    [reflexivity | reflexivity | discriminate].
Defined.

Lemma install_node_latest_aliases_witness :
  fst (install_node Sample.offline "my-pack" (Some "latest")
         (snd (install_node Fixture.shop "my-pack" None Sample.empty_world)))
  = fst (install_node Fixture.shop "my-pack" None Sample.empty_world).
Proof.
  destruct (install_node_latest_aliases Fixture.shop Sample.offline "my-pack"
              Sample.empty_world
              (PNodeVersion
                 {| changelog := JStr ""; dependencies := JArr [];
                    deprecated := JBool false; id := JStr "my-pack";
                    version := JStr "1.2.0";
                    download_url := JStr "https://example.org/my-pack-1.2.0.zip" |}))
    as (Hlatest & _); [reflexivity | discriminate |].
  rewrite Hlatest. reflexivity.
Defined.

Lemma install_node_invalid_payload_witness :
  install_node Fixture.shop "broken" None Sample.empty_world
  = (Raise (KeyError "id"),
     log_request (install_url "broken" None) Sample.empty_world).
Proof.
  apply (install_node_invalid_payload Fixture.shop "broken" None Sample.empty_world
           (JObj [("version", JStr "0.1.0")])); reflexivity.
Defined.

Lemma all_versions_of_node_memoized_witness :
  fst (all_versions_of_node Fixture.shop "my-pack" Sample.empty_world)
  = Ok (PJson Fixture.versions)
  /\ fst (all_versions_of_node Sample.offline "my-pack"
            (snd (all_versions_of_node Fixture.shop "my-pack" Sample.empty_world)))
     = Ok (PJson Fixture.versions).
Proof.
  destruct (all_versions_of_node_memoized Fixture.shop "my-pack" Sample.empty_world
              Fixture.versions) as (Hfirst & _ & Hagain); [reflexivity..|].
  split; [exact Hfirst|]. by rewrite Hagain.
Defined.

Lemma map_node_version_errors_witness :
  map_node_version (JArr []) = Raise AttributeError
  /\ map_node_version (JObj [("changelog", JStr "first")]) = Raise (KeyError "id")
  /\ map_node_version (JObj [("id", JStr "my-pack")]) = Raise (KeyError "version").
Proof.
  split; [|split].
  - apply (map_node_version_errors (JArr [])). intros [fields Hobj]. discriminate.
  - apply (proj1 (proj2 (map_node_version_errors _)) [("changelog", JStr "first")]);
      reflexivity.
  - apply (proj2 (proj2 (map_node_version_errors _))
             [("id", JStr "my-pack")] (JStr "my-pack")); reflexivity.
Defined.

Lemma read_cnr_info_requires_both_files_witness :
  @read_cnr_info Sample.util "/nodes/my-pack" Sample.untracked
  = (Ok JNull, Sample.untracked).
Proof.
  apply (@read_cnr_info_requires_both_files Sample.util); [reflexivity|].
  right. reflexivity.
Defined.

Lemma read_cnr_info_valid_witness :
  fst (@read_cnr_info Sample.util "/nodes/my-pack" (Sample.tracked Sample.untracked))
  = Ok (JObj [("id", JStr "my-pack"); ("version", JStr "2.5.0");
              ("url", JStr "https://example.org/my-pack")]).
Proof.
  rewrite (@read_cnr_info_valid Sample.util "/nodes/my-pack"
             (Sample.tracked Sample.untracked)
             [("project",
               JObj [("name", JStr " My-Pack "); ("version", JStr "2.5");
                     ("urls",
                      JObj [("Repository", JStr "https://example.org/my-pack")])])]
             [("name", JStr " My-Pack "); ("version", JStr "2.5");
              ("urls", JObj [("Repository", JStr "https://example.org/my-pack")])]
             " My-Pack " (JStr "2.5") "2.5.0" (JStr "https://example.org/my-pack"));
    try reflexivity; try discriminate.
  eexists. reflexivity.
Defined.

Lemma read_cnr_info_identity_shape_witness :
  exists name version url,
    JObj [("id", JStr "my-pack"); ("version", JStr "2.5.0");
          ("url", JStr "https://example.org/my-pack")]
    = JObj [("id", JStr name); ("version", JStr version); ("url", url)]
    /\ name <> "" /\ version <> "" /\ str_lower name = name.
Proof.
  apply (@read_cnr_info_identity_shape Sample.util "/nodes/my-pack"
           (Sample.tracked Sample.untracked));
    [reflexivity | reflexivity | discriminate].
Defined.

Lemma generate_then_read_cnr_id_witness :
  read_cnr_id "/nodes/my-pack"
    (snd (generate_cnr_id "/nodes/my-pack"
            ("  my-pack-id" +:+ String "013"%char (String "010"%char ""))
            Fixture.checkout))
  = JStr "my-pack-id".
Proof.
  destruct (generate_then_read_cnr_id "/nodes/my-pack"
              ("  my-pack-id" +:+ String "013"%char (String "010"%char ""))
              Fixture.checkout) as (_ & Hread & _); [reflexivity..|].
  rewrite Hread. reflexivity.
Defined.

